(** * Shallow embedding of the monitoring planner, efficiency helpers and the
    payment workflow of the workspace backend *)

From Stdlib Require Import Bool String ZArith.
From Stdlib Require Import List Arith Lia.
From Stdlib Require Import Sorted Permutation QArith Qround Lqa.
Import ListNotations.
Open Scope nat_scope.
Open Scope string_scope.
Open Scope list_scope.
Open Scope nat_scope.

(** ** utils/helpers.js : monitoring window planner *)
Module Helpers.

(** Times of day are minutes since midnight: the source parses "HH:mm"
    strings on the fixed day 2023-01-01, so comparisons of dayjs values are
    comparisons of minute counts. *)
Record BreakPeriod := mkBreak { startTime : nat; endTime : nat }.

(** [isWorkingHour]: outside the window when before start or after end
    (both ends inclusive); inside a break only when strictly after its start
    and strictly before its end.  The loop returns [false] at the first break
    that contains [current]. *)
Fixpoint inNoBreak (current : nat) (breakPeriods : list BreakPeriod) : bool :=
  match breakPeriods with
  | [] => true
  | b :: rest =>
      if (startTime b <? current) && (current <? endTime b) then false
      else inNoBreak current rest
  end.

Definition isWorkingHour (current workStartTime workEndTime : nat)
    (breakPeriods : list BreakPeriod) : bool :=
  if (current <? workStartTime) || (workEndTime <? current) then false
  else inNoBreak current breakPeriods.

(** [for (let i = 0; i <= totalMinutes; i++)] over [start.add(i, "minute")],
    keeping the minutes accepted by [isWorkingHour]. *)
Definition allMinutesOf (workStartTime workEndTime : nat)
    (breakPeriods : list BreakPeriod) : list nat :=
  let totalMinutes := workEndTime - workStartTime in
  filter (fun t => isWorkingHour t workStartTime workEndTime breakPeriods)
         (map (fun i => workStartTime + i) (seq 0 (S totalMinutes))).

(** [allMinutes.splice(randomIndex, 1)] *)
Fixpoint removeAt (k : nat) (l : list nat) : list nat :=
  match l, k with
  | [], _ => []
  | _ :: t, 0 => t
  | h :: t, S k' => h :: removeAt k' t
  end.

(** The selection loop.  [Math.floor(Math.random() * allMinutes.length)] is
    an index below the current length; the draws are an oracle [draw] (the
    [i]-th call of [Math.random]) reduced modulo the length, which ranges over
    every index sequence the source can produce. *)
Fixpoint pickLoop (draw : nat -> nat) (i n : nat) (allMinutes randomTimes : list nat)
    : list nat :=
  match n with
  | 0 => randomTimes
  | S n' =>
      let randomIndex := draw i mod length allMinutes in
      pickLoop draw (S i) n' (removeAt randomIndex allMinutes)
               (randomTimes ++ [nth randomIndex allMinutes 0])
  end.

(** [randomTimes.sort((a, b) => diff(a, b))]: an ascending sort on minutes.
    Every correct comparison sort returns the same list here. *)
Fixpoint insertTime (x : nat) (l : list nat) : list nat :=
  match l with
  | [] => [x]
  | h :: t => if x <=? h then x :: h :: t else h :: insertTime x t
  end.

Fixpoint sortTimes (l : list nat) : list nat :=
  match l with
  | [] => []
  | h :: t => insertTime h (sortTimes t)
  end.

Definition generateRandomMonitoringTimes (draw : nat -> nat)
    (workStartTime workEndTime : nat) (breakPeriods : list BreakPeriod)
    (count : nat) : list nat :=
  let allMinutes := allMinutesOf workStartTime workEndTime breakPeriods in
  let timesCount := Nat.min count (length allMinutes) in
  sortTimes (pickLoop draw 0 timesCount allMinutes []).

(** [x.toFixed(2)] read back by [parseFloat], over exact rationals: the
    decimal [n / 100] nearest to [|x|], the larger [n] on a tie, with the
    sign of [x] put back. *)
Definition toFixed2 (x : Q) : Q :=
  if negb (Qle_bool 0 x)
  then (- (inject_Z (Qfloor (- x * 100 + (1 # 2))) / 100))%Q
  else (inject_Z (Qfloor (x * 100 + (1 # 2))) / 100)%Q.

(** JavaScript truthiness of a numeric argument: [undefined] (modelled by
    [None]) and [0] are falsy. *)
Definition falsy (x : option Q) : bool :=
  match x with
  | None => true
  | Some q => Qeq_bool q 0%Q
  end.

(** [calculateDailyPayRate] *)
Definition calculateDailyPayRate (monthlySalary workingDaysPerMonth : option Q) : Q :=
  if falsy monthlySalary || falsy workingDaysPerMonth then 0%Q
  else match monthlySalary, workingDaysPerMonth with
       | Some a, Some b => toFixed2 (a / b)%Q
       | _, _ => 0%Q
       end.

(** [calculateEfficiency(present, total)] *)
Definition calculateEfficiency (present total : nat) : Q :=
  if total =? 0 then 0%Q
  else toFixed2 ((inject_Z (Z.of_nat present) / inject_Z (Z.of_nat total)) * 100)%Q.

End Helpers.

(** ** Records shared by the controllers, the payment service and the jobs *)
Module Model.

(** A payment document.  Ids are naturals, times are milliseconds (Z),
    money is a JavaScript number taken as an exact rational, statuses are
    the ad-hoc strings the code writes. *)
Record Payment := mkPayment {
  pId : nat;
  pEmployee : nat;
  pEmployer : nat;
  pCompany : nat;
  pAmount : Q;
  pDate : Z;
  pCreatedAt : Z;
  pStatus : string;
  pEfficiency : Q;
  pApprovedBy : option nat;
  pApprovedAt : option Z;
  pDeclinedBy : option nat;
  pDeclinedAt : option Z;
  pDeclineReason : option string;
  pRequiresAdminReview : bool;
  pReference : option string;
  pNotes : option string
}.

(** [Payment.findById] *)
Definition findById (ps : list Payment) (id : nat) : option Payment :=
  find (fun p => pId p =? id) ps.

(** [payment.save()] on a document that is already stored. *)
Definition savePayment (ps : list Payment) (p : Payment) : list Payment :=
  map (fun q => if pId q =? pId p then p else q) ps.

(** Observable side effects, in the order the code performs them. *)
Inductive Event :=
  | EvTransfer (recipient : nat) (amount : Q)
  | EvSave (payment : nat) (status : string)
  | EvDebit (user : nat) (amount : Q)
  | EvNotify (recipient : nat).

Record World := mkWorld {
  payments : list Payment;
  balance : nat -> Q;
  log : list Event
}.

(** [$inc: { balance: -amount }] on one user. *)
Definition debit (bal : nat -> Q) (u : nat) (amt : Q) : nat -> Q :=
  fun v => if v =? u then (bal v - amt)%Q else bal v.

Definition withStatus (p : Payment) (st : string) : Payment :=
  mkPayment (pId p) (pEmployee p) (pEmployer p) (pCompany p) (pAmount p)
    (pDate p) (pCreatedAt p) st (pEfficiency p) (pApprovedBy p) (pApprovedAt p)
    (pDeclinedBy p) (pDeclinedAt p) (pDeclineReason p)
    (pRequiresAdminReview p) (pReference p) (pNotes p).

End Model.

(** ** services/paymentService.js (the [PaymentService] class) *)
Module Service.
Import Model.

(** Outcome of an operation: the value, or the error thrown to the caller.
    Every method wraps its body in [try/catch] and rethrows one generic
    message, so an error carries the outer message and the inner cause. *)
Inductive Result (A : Type) :=
  | Ok (a : A)
  | Failed (message cause : string).
Arguments Ok {A}.
Arguments Failed {A}.

Record EmployerData := mkEmployerData { edId : nat; edBalance : Q }.

(** [initiateTransfer]: the answer of the transfer network, a reference or a
    throw.  In this code base [initiateTransfer] calls [paystackTransfer],
    which no module defines, so the call always throws: [None] is the only
    answer the code produces, and [Some] describes a working transfer. *)
Definition transferResult := option string.

(** [approvePayment(paymentId, employerData)].  The e-mail to the worker
    sent after the save and the debit is taken to succeed; were it to throw,
    the caller would get "Failed to approve payment" with the save and the
    debit already done. *)
Definition approvePayment (w : World) (paymentId : nat) (employerData : EmployerData)
    (now : Z) (transfer : transferResult) : Result Payment * World :=
  let fail cause := (Failed "Failed to approve payment" cause, w) in
  match findById (payments w) paymentId with
  | None => fail "Payment not found"
  | Some payment =>
      if negb (String.eqb (pStatus payment) "pending") then
        fail "Payment is not in pending status"
      else if negb (pEmployer payment =? edId employerData) then
        fail "Unauthorized to approve this payment"
      else if negb (Qle_bool (pAmount payment) (edBalance employerData)) then
        fail "Insufficient balance to process payment"
      else
        let w1 := mkWorld (payments w) (balance w)
                    (log w ++ [EvTransfer (pEmployee payment) (pAmount payment)]) in
        match transfer with
        | None => (Failed "Failed to approve payment" "Failed to initiate transfer", w1)
        | Some ref =>
            let payment' :=
              mkPayment (pId payment) (pEmployee payment) (pEmployer payment)
                (pCompany payment) (pAmount payment) (pDate payment)
                (pCreatedAt payment) "approved" (pEfficiency payment)
                (Some (edId employerData)) (Some now)
                (pDeclinedBy payment) (pDeclinedAt payment) (pDeclineReason payment)
                (pRequiresAdminReview payment) (Some ref) (pNotes payment) in
            (Ok payment',
             mkWorld (savePayment (payments w) payment')
                     (debit (balance w) (edId employerData) (pAmount payment))
                     (log w1 ++ [EvSave paymentId "approved";
                                 EvDebit (edId employerData) (pAmount payment);
                                 EvNotify (pEmployee payment)]))
        end
  end.

(** [declinePayment(paymentId, employerData, reason)] *)
Definition declinePayment (w : World) (paymentId : nat) (employerData : EmployerData)
    (now : Z) (reason : option string) : Result Payment * World :=
  let fail cause := (Failed "Failed to decline payment" cause, w) in
  match findById (payments w) paymentId with
  | None => fail "Payment not found"
  | Some payment =>
      if negb (String.eqb (pStatus payment) "pending") then
        fail "Payment is not in pending status"
      else if negb (pEmployer payment =? edId employerData) then
        fail "Unauthorized to decline this payment"
      else
        let payment' :=
          mkPayment (pId payment) (pEmployee payment) (pEmployer payment)
            (pCompany payment) (pAmount payment) (pDate payment)
            (pCreatedAt payment) "declined" (pEfficiency payment)
            (pApprovedBy payment) (pApprovedAt payment)
            (Some (edId employerData)) (Some now) reason
            (pRequiresAdminReview payment) (pReference payment) (pNotes payment) in
        (Ok payment',
         mkWorld (savePayment (payments w) payment') (balance w)
                 (log w ++ [EvSave paymentId "declined"; EvNotify (pEmployee payment)]))
  end.

End Service.

(** ** Attendance and employee documents *)
Module People.

Record MonitoringResult := mkResult {
  mTime : Z;
  isPresent : bool;
  imageUrl : option string
}.

Record Attendance := mkAttendance {
  aId : nat;
  aEmployee : nat;
  aDate : Z;
  clockInTime : option Z;
  clockOutTime : option Z;
  monitoringResults : list MonitoringResult
}.

(** The fields of a user document the payment passes read:
    [employmentDetails] (admin endpoint) and [workSchedule] / [paymentInfo]
    (scheduled job). *)
Record Employee := mkEmployee {
  eId : nat;
  eCompany : nat;
  eEmployer : nat;
  eDailyRate : option Q;
  eWages : Q;
  eWorkingDayNames : list string;
  eSalary : option Q;
  eWorkingDays : list nat;
  eHasRemittance : bool
}.

Definition isSome {A} (o : option A) : bool :=
  match o with Some _ => true | None => false end.

Definition dayMs : Z := 86400000.
Definition hourMs : Z := 3600000.

(** [new Date().setHours(0, 0, 0, 0)] in local milliseconds. *)
Definition dayStart (now : Z) : Z := (now - now mod dayMs)%Z.

End People.

(** ** controllers/paymentController.js *)
Module Controllers.
Import Model People.

Record Request := mkRequest {
  rPaymentId : option nat;
  rAction : option string;
  rReason : option string
}.

(** [!reason]: absent or the empty string. *)
Definition falsyStr (s : option string) : bool :=
  match s with
  | None => true
  | Some x => String.eqb x ""
  end.

Definition Response := (Z * string)%type.

Definition approveFields (p : Payment) (uid : nat) (now : Z) : Payment :=
  mkPayment (pId p) (pEmployee p) (pEmployer p) (pCompany p) (pAmount p)
    (pDate p) (pCreatedAt p) "approved" (pEfficiency p) (Some uid) (Some now)
    (pDeclinedBy p) (pDeclinedAt p) (pDeclineReason p)
    (pRequiresAdminReview p) (pReference p) (pNotes p).

Definition declineFields (p : Payment) (uid : nat) (now : Z) (reason : option string)
    : Payment :=
  mkPayment (pId p) (pEmployee p) (pEmployer p) (pCompany p) (pAmount p)
    (pDate p) (pCreatedAt p) "declined" (pEfficiency p) (pApprovedBy p)
    (pApprovedAt p) (Some uid) (Some now) reason
    true (pReference p) (pNotes p).

(** [processDailyPayment] (employer approve / decline).  [companyOf] maps a
    user id to the company of its user document. *)
Definition processDailyPayment (w : World) (companyOf : nat -> nat) (userId : nat)
    (now : Z) (req : Request) : Response * World :=
  match rPaymentId req, rAction req with
  | Some paymentId, Some action =>
      if negb (String.eqb action "approve" || String.eqb action "decline") then
        ((400, "Payment ID and valid action (approve/decline) are required")%Z, w)
      else if String.eqb action "decline" && falsyStr (rReason req) then
        ((400, "Reason is required when declining a payment")%Z, w)
      else
        match findById (payments w) paymentId with
        | None => ((404, "Payment not found")%Z, w)
        | Some payment =>
            if negb (companyOf (pEmployee payment) =? companyOf userId) then
              ((403, "Not authorized to process this payment")%Z, w)
            else if (hourMs <? now - pCreatedAt payment)%Z then
              ((400, "Approval window has expired (1 hour after payment creation)")%Z, w)
            else
              let payment' :=
                if String.eqb action "approve" then approveFields payment userId now
                else declineFields payment userId now (rReason req) in
              ((200, if String.eqb action "approve"
                     then "Payment approved successfully"
                     else "Payment declined successfully")%Z,
               mkWorld (savePayment (payments w) payment') (balance w)
                       (log w ++ [EvSave paymentId (pStatus payment')]))
        end
  | _, _ => ((400, "Payment ID and valid action (approve/decline) are required")%Z, w)
  end.

Definition nextId (ps : list Payment) : nat :=
  S (fold_right (fun p m => Nat.max (pId p) m) 0 ps).

Definition todayStart (now : Z) : Z := dayStart now.
(** [new Date().setHours(23, 59, 59, 999)], an exclusive bound. *)
Definition todayEnd (now : Z) : Z := (dayStart now + dayMs - 1)%Z.

(** The [existingPayment] query: a payment of [emp] dated today. *)
Definition paidToday (ps : list Payment) (emp : nat) (now : Z) : bool :=
  existsb (fun p => (pEmployee p =? emp) && (todayStart now <=? pDate p)%Z
                    && (pDate p <? todayEnd now)%Z) ps.

(** One iteration of the loop of the admin endpoint [processDailyPayments]
    (the attendance reference and remittance details stored on the new
    payment are not modelled).  The endpoint writes no employer and no
    efficiency on the payment; the record's fields [pEmployer] and
    [pEfficiency] take the placeholders [eEmployer e] and 0, which no
    property reads.  The [failureReason] of a failed payment is kept in
    [pNotes]. *)
Definition adminPayOne (now : Z) (w : World) (e : Employee)
    : World :=
  if paidToday (payments w) (eId e) now then w
  else
    let dailyRate :=
      match eDailyRate e with
      | Some r => if Qeq_bool r 0 then
                    (eWages e / inject_Z (Z.of_nat (length (eWorkingDayNames e) * 4)))%Q
                  else r
      | None => (eWages e / inject_Z (Z.of_nat (length (eWorkingDayNames e) * 4)))%Q
      end in
    let id := nextId (payments w) in
    if negb (Qle_bool dailyRate (balance w (eCompany e))) then
      mkWorld (payments w ++ [mkPayment id (eId e) (eEmployer e) (eCompany e) dailyRate
                                now now "failed" 0 None None None None None false None
                                (Some "Insufficient company balance")])
              (balance w) (log w ++ [EvSave id "failed"])
    else
      mkWorld (payments w ++ [mkPayment id (eId e) (eEmployer e) (eCompany e) dailyRate
                                now now "pending" 0 None None None None None false None
                                None])
              (balance w) (log w ++ [EvSave id "pending"; EvNotify (eEmployer e)]).

Definition nameOfDay (d : nat) : string :=
  nth d ["sun"; "mon"; "tue"; "wed"; "thu"; "fri"; "sat"] "".

(** The admin endpoint [processDailyPayments]: today's attendance records
    with both clock times, then the users among them whose working days
    contain today's name and who have remittance details, in order. *)
Definition processDailyPayments (w : World) (isAdmin : bool) (now : Z) (dayOfWeek : nat)
    (attendance : list Attendance) (users : list Employee) : Response * World :=
  if negb isAdmin then ((403, "Not authorized to process daily payments")%Z, w)
  else
    let attendanceRecords :=
      filter (fun a => (todayStart now <=? aDate a)%Z && (aDate a <? todayEnd now)%Z
                       && isSome (clockInTime a) && isSome (clockOutTime a)) attendance in
    let employeesWithPaymentInfo :=
      filter (fun e => existsb (fun a => aEmployee a =? eId e) attendanceRecords
                       && existsb (String.eqb (nameOfDay dayOfWeek)) (eWorkingDayNames e)
                       && eHasRemittance e) users in
    ((200, "Daily payments processed")%Z,
     fold_left (adminPayOne now) employeesWithPaymentInfo w).

End Controllers.

(** ** controllers/employeeController.js : clock in / clock out *)
Module EmployeeCtl.
Import People.

Definition saveAttendance (db : list Attendance) (a : Attendance) : list Attendance :=
  map (fun b => if aId b =? aId a then a else b) db.

Definition nextAttendanceId (db : list Attendance) : nat :=
  S (fold_right (fun a m => Nat.max (aId a) m) 0 db).

(** The query [{employee, date in today, clockOutTime: null}]; a missing
    [clockOutTime] matches [null]. *)
Definition openToday (db : list Attendance) (emp : nat) (now : Z) : option Attendance :=
  find (fun a => (aEmployee a =? emp) && (dayStart now <=? aDate a)%Z
                 && (aDate a <? dayStart now + dayMs - 1)%Z
                 && negb (isSome (clockOutTime a))) db.

(** [clockIn], after the face check succeeded. *)
Definition clockIn (db : list Attendance) (emp : nat) (now : Z)
    : (Z * string) * list Attendance :=
  match openToday db emp now with
  | Some _ => ((400, "Already clocked in. Please clock out first.")%Z, db)
  | None =>
      ((200, "Clocked in successfully")%Z,
       db ++ [mkAttendance (nextAttendanceId db) emp now (Some now) None []])
  end.

(** [clockOut], after the face check succeeded. *)
Definition clockOut (db : list Attendance) (emp : nat) (now : Z)
    : (Z * string) * list Attendance :=
  match openToday db emp now with
  | None => ((400, "No active clock-in found. Please clock in first.")%Z, db)
  | Some a =>
      ((200, "Clocked out successfully")%Z,
       saveAttendance db (mkAttendance (aId a) (aEmployee a) (aDate a)
                            (clockInTime a) (Some now) (monitoringResults a)))
  end.

End EmployeeCtl.

(** ** jobs/scheduledTasks.js *)
Module Jobs.
Import Model People.

Definition pushResult (a : Attendance) (r : MonitoringResult) : Attendance :=
  mkAttendance (aId a) (aEmployee a) (aDate a) (clockInTime a) (clockOutTime a)
    (monitoringResults a ++ [r]).

(** [Attendance.findOne({employee, date in [today, today + 24h)})] *)
Definition attendanceToday (db : list Attendance) (emp : nat) (today : Z)
    : option Attendance :=
  find (fun a => (aEmployee a =? emp) && (today <=? aDate a)%Z
                 && (aDate a <? today + dayMs)%Z) db.

(** What [monitorEmployee] observes once the worker is clocked in: whether
    the current minute is a break, then the snapshot and face check. *)
Inductive Capture :=
  | CaptureFailed
  | Captured (url : string) (isMatch : bool).

(** [monitorEmployee] for an active employee. *)
Definition monitorEmployee (db : list Attendance) (emp : nat) (now : Z)
    (inBreak : bool) (capture : Capture) : list Attendance :=
  let today := dayStart now in
  match attendanceToday db emp today with
  | None =>
      db ++ [mkAttendance (EmployeeCtl.nextAttendanceId db) emp today None None
               [mkResult now false None]]
  | Some a =>
      if negb (isSome (clockInTime a)) then
        EmployeeCtl.saveAttendance db (pushResult a (mkResult now false None))
      else if inBreak then db
      else match capture with
           | CaptureFailed =>
               EmployeeCtl.saveAttendance db (pushResult a (mkResult now false None))
           | Captured url m =>
               EmployeeCtl.saveAttendance db (pushResult a (mkResult now m (Some url)))
           end
  end.

(** The efficiency the payment pass stores: present results over all
    recorded results. *)
Definition attendanceEfficiency (a : Attendance) : Q :=
  let results := monitoringResults a in
  Helpers.calculateEfficiency (length (filter isPresent results)) (length results).

(** One iteration of the loop of the scheduled [processDailyPayments]. *)
Definition cronPayOne (now : Z) (dayOfWeek : nat) (db : list Attendance) (w : World)
    (e : Employee) : World :=
  let today := dayStart now in
  if negb (existsb (Nat.eqb dayOfWeek) (eWorkingDays e)) then w
  else
    match attendanceToday db (eId e) today with
    | Some a =>
        if isSome (clockInTime a) && isSome (clockOutTime a) then
          let dailyRate :=
            Helpers.calculateDailyPayRate (eSalary e)
              (Some (inject_Z (Z.of_nat (length (eWorkingDays e) * 4)))) in
          let efficiency := attendanceEfficiency a in
          let autoApprove := Qle_bool 70 efficiency in
          let id := Controllers.nextId (payments w) in
          mkWorld (payments w ++
                     [mkPayment id (eId e) (eEmployer e) (eCompany e) dailyRate today now
                        (if autoApprove then "pending_approval" else "needs_review")
                        efficiency None None None None None false None None])
                  (balance w) (log w ++ [EvSave id (if autoApprove then "pending_approval"
                                                   else "needs_review");
                                         EvNotify (eEmployer e)])
        else w
    | None => w
    end.

(** The scheduled [processDailyPayments] over the active employees with a
    salary, in order. *)
Definition processDailyPayments (now : Z) (dayOfWeek : nat) (db : list Attendance)
    (employees : list Employee) (w : World) : World :=
  fold_left (cronPayOne now dayOfWeek db) employees w.

(** Result of [paymentService.processDailyPayment(payment)]: a result with
    [success] and a reference, a result without success, or a throw (which
    ends [handlePendingPayments] in its outer [catch]). *)
Inductive ServiceOutcome :=
  | SvcSuccess (reference : string)
  | SvcFailure (error : string)
  | SvcThrow.

Definition paidFields (p : Payment) (ref : string) : Payment :=
  mkPayment (pId p) (pEmployee p) (pEmployer p) (pCompany p) (pAmount p)
    (pDate p) (pCreatedAt p) "paid" (pEfficiency p) (pApprovedBy p) (pApprovedAt p)
    (pDeclinedBy p) (pDeclinedAt p) (pDeclineReason p)
    (pRequiresAdminReview p) (Some ref) (pNotes p).

Definition failedFields (p : Payment) (err : string) : Payment :=
  mkPayment (pId p) (pEmployee p) (pEmployer p) (pCompany p) (pAmount p)
    (pDate p) (pCreatedAt p) "failed" (pEfficiency p) (pApprovedBy p) (pApprovedAt p)
    (pDeclinedBy p) (pDeclinedAt p) (pDeclineReason p)
    (pRequiresAdminReview p) (pReference p)
    (Some (String.append "Automatic payment failed: " err)).

(** The loop over [pendingPayments]; the flag says whether a throw ended it. *)
Fixpoint payPending (outcome : nat -> ServiceOutcome) (admins : list nat)
    (todo : list Payment) (w : World) : World * bool :=
  match todo with
  | [] => (w, false)
  | p :: rest =>
      match outcome (pId p) with
      | SvcSuccess ref =>
          payPending outcome admins rest
            (mkWorld (savePayment (payments w) (paidFields p ref)) (balance w)
                     (log w ++ [EvSave (pId p) "paid"; EvNotify (pEmployee p)]))
      | SvcFailure err =>
          payPending outcome admins rest
            (mkWorld (savePayment (payments w) (failedFields p err)) (balance w)
                     (log w ++ EvSave (pId p) "failed" :: map EvNotify admins))
      | SvcThrow => (w, true)
      end
  end.

Definition overdue (st : string) (approvalDeadline : Z) (p : Payment) : bool :=
  String.eqb (pStatus p) st && (pCreatedAt p <? approvalDeadline)%Z.

(** [handlePendingPayments] *)
Definition handlePendingPayments (w : World) (now : Z) (admins : list nat)
    (outcome : nat -> ServiceOutcome) : World :=
  let approvalDeadline := (now - hourMs)%Z in
  let pendingPayments := filter (overdue "pending_approval" approvalDeadline) (payments w) in
  match payPending outcome admins pendingPayments w with
  | (w1, true) => w1
  | (w1, false) =>
      let reviewPayments := filter (overdue "needs_review" approvalDeadline) (payments w1) in
      match reviewPayments with
      | [] => w1
      | _ => mkWorld (payments w1) (balance w1) (log w1 ++ map EvNotify admins)
      end
  end.

(** Successive runs of the sweep, each at its time and with the payment
    service's answers at that run. *)
Fixpoint runSweeps (runs : list (Z * (nat -> ServiceOutcome))) (admins : list nat)
    (w : World) : World :=
  match runs with
  | [] => w
  | (now, outcome) :: rest => runSweeps rest admins (handlePendingPayments w now admins outcome)
  end.

(** [cron.schedule("0 0 * * *", handlePendingPayments)]: the sweep runs at
    every local midnight; the first one strictly after the instant [t]. *)
Definition nextMidnight (t : Z) : Z := ((t / dayMs + 1) * dayMs)%Z.

End Jobs.

(** The attendance records of one worker over a day: everything the clock
    endpoints and the monitoring job do to the attendance collection. *)
Module Workday.
Import People.

Definition recordsOfDay (db : list Attendance) (emp : nat) (today : Z) : list Attendance :=
  filter (fun a => (aEmployee a =? emp) && (today <=? aDate a)%Z
                   && (aDate a <? today + dayMs)%Z) db.

Inductive AttendanceOp :=
  | OpClockIn (now : Z)
  | OpClockOut (now : Z)
  | OpMonitor (now : Z) (inBreak : bool) (capture : Jobs.Capture).

Definition applyOp (emp : nat) (db : list Attendance) (op : AttendanceOp) : list Attendance :=
  match op with
  | OpClockIn now => snd (EmployeeCtl.clockIn db emp now)
  | OpClockOut now => snd (EmployeeCtl.clockOut db emp now)
  | OpMonitor now b c => Jobs.monitorEmployee db emp now b c
  end.

Definition runOps (emp : nat) (db : list Attendance) (ops : list AttendanceOp)
    : list Attendance :=
  fold_left (applyOp emp) ops db.

End Workday.

(** Sample data: payment 1 of employee 10 to employer 20 (company 30). *)
Module Sample.
Import Model.

Definition pay1 (st : string) : Payment :=
  mkPayment 1 10 20 30 5000 0 0 st 80 None None None None None false None None.

Definition world1 (st : string) : World :=
  mkWorld [pay1 st] (fun u => if u =? 20 then 10000%Q else 0%Q) [].

Definition employer20 : Service.EmployerData := Service.mkEmployerData 20 10000.


Definition day0 : Z := 1641600000000.

Definition employee10 : People.Employee :=
  People.mkEmployee 10 30 20 None 40000 ["mon"; "tue"; "wed"; "thu"; "fri"]
    (Some 80000%Q) [1; 2; 3; 4; 5] true.

Definition attendance10 : People.Attendance :=
  People.mkAttendance 1 10 (day0 + 32400000)%Z (Some (day0 + 32400000)%Z)
    (Some (day0 + 61140000)%Z)
    (repeat (People.mkResult (day0 + 36000000)%Z true None) 8).

Definition world0 : World := mkWorld [] (fun c => if c =? 30 then 100000%Q else 0%Q) [].

(** A payment of employee 10 created by the 18:00 job with efficiency 50. *)
Definition pay2 (st : string) : Payment :=
  mkPayment 2 10 20 30 2000 day0 (day0 + 64800000)%Z st 50 None None None None None
    false None None.

Definition world2 (st : string) : World := mkWorld [pay2 st] (fun _ => 0%Q) [].

(** The payments of [emp] dated on the day of [t]. *)
Definition paymentsOn (ps : list Payment) (emp : nat) (t : Z) : list Payment :=
  filter (fun p => (pEmployee p =? emp) && (People.dayStart t <=? pDate p)%Z
                   && (pDate p <? People.dayStart t + People.dayMs)%Z) ps.

End Sample.

(** ** utils/helpers.js : pagination, working hours, CSV *)
Module Paging.

(** [Math.ceil(a / b)] for integers with [b <> 0]: minus the floor of
    [-a / b]. *)
Definition ceilDiv (a b : Z) : Z := (- ((- a) / b))%Z.

Record Pagination := mkPagination {
  totalItems : Z;
  currentPage : Z;
  pageSize : Z;
  totalPages : Z;
  hasNextPage : bool;
  hasPrevPage : bool;
  nextPage : option Z;
  prevPage : option Z
}.

(** [getPagination(totalItems, currentPage, pageSize)] on integer
    arguments; [null] is [None].  A zero page size (division by zero in the
    source) is outside the properties below. *)
Definition getPagination (totalItems currentPage pageSize : Z) : Pagination :=
  let totalPages := ceilDiv totalItems pageSize in
  let hasNextPage := (currentPage <? totalPages)%Z in
  let hasPrevPage := (1 <? currentPage)%Z in
  mkPagination totalItems currentPage pageSize totalPages hasNextPage hasPrevPage
    (if hasNextPage then Some (currentPage + 1)%Z else None)
    (if hasPrevPage then Some (currentPage - 1)%Z else None).

End Paging.

Module Hours.

(** [dayjs(later).diff(dayjs(earlier), "minute")]: the millisecond
    difference over 60000, truncated toward zero. *)
Definition minuteDiff (later earlier : Z) : Z := Z.quot (later - earlier) 60000.

(** [calculateWorkingHours(clockIn, clockOut, breaks)]; instants are
    milliseconds, a missing clock time is [None], a break is the pair of
    its start and end instants. *)
Definition calculateWorkingHours (clockIn clockOut : option Z) (breaks : list (Z * Z)) : Q :=
  match clockIn, clockOut with
  | Some i, Some o =>
      let totalMinutes :=
        fold_left (fun tm (b : Z * Z) =>
                     if (i <? fst b)%Z && (snd b <? o)%Z
                     then (tm - minuteDiff (snd b) (fst b))%Z else tm)
                  breaks (minuteDiff o i) in
      Helpers.toFixed2 (inject_Z totalMinutes / 60)%Q
  | _, _ => 0%Q
  end.

End Hours.

Module Csv.

(** [s.split(c)] for a one-character separator: always at least one
    piece; strings are sequences of 8-bit code units. *)
Fixpoint splitOn (c : Ascii.ascii) (s : string) : list string :=
  match s with
  | EmptyString => [EmptyString]
  | String x rest =>
      let parts := splitOn c rest in
      if Ascii.eqb x c then EmptyString :: parts
      else match parts with
           | p :: ps => String x p :: ps
           | [] => [String x EmptyString]
           end
  end.

(** The code units below 256 that [String.prototype.trim] removes: tab,
    line feed, vertical tab, form feed, carriage return, space and
    no-break space. *)
Definition isJsSpace (x : Ascii.ascii) : bool :=
  let n := Ascii.nat_of_ascii x in
  ((9 <=? n) && (n <=? 13)) || (n =? 32) || (n =? 160).

Fixpoint dropSpaces (l : list Ascii.ascii) : list Ascii.ascii :=
  match l with
  | x :: r => if isJsSpace x then dropSpaces r else l
  | [] => []
  end.

Definition trim (s : string) : string :=
  string_of_list_ascii
    (rev (dropSpaces (rev (dropSpaces (list_ascii_of_string s))))).

(** A plain object's own properties, in insertion order; a value is a
    string or [undefined] ([None]). *)
Definition Row := list (string * option string).

(** [row[key] = value]: an existing key is overwritten in place, a new key
    is appended; assigning a non-object to ["__proto__"] goes to the
    inherited setter, which ignores it. *)
Fixpoint assignKey (key : string) (value : option string) (row : Row) : Row :=
  match row with
  | [] => [(key, value)]
  | (k, v) :: rest =>
      if String.eqb k key then (k, value) :: rest else (k, v) :: assignKey key value rest
  end.

Definition objSet (key : string) (value : option string) (row : Row) : Row :=
  if String.eqb key "__proto__" then row else assignKey key value row.

(** The own property [key] of [row]: [None] when absent. *)
Fixpoint ownLookup (row : Row) (key : string) : option (option string) :=
  match row with
  | [] => None
  | (k, v) :: rest => if String.eqb k key then Some v else ownLookup rest key
  end.

(** [headers.forEach((header, index) => { row[header] = values[index]; })] *)
Fixpoint fillRow (values : list string) (headers : list string) (index : nat) (row : Row)
    : Row :=
  match headers with
  | [] => row
  | h :: hs => fillRow values hs (S index) (objSet h (nth_error values index) row)
  end.

Definition newline : Ascii.ascii := Ascii.ascii_of_nat 10.
Definition comma : Ascii.ascii := Ascii.ascii_of_nat 44.

(** [parseCSV(csvData)] *)
Definition parseCSV (csvData : string) : list Row :=
  let lines := splitOn newline csvData in
  let headers := map trim (splitOn comma (hd EmptyString lines)) in
  map (fun line => fillRow (map trim (splitOn comma line)) headers 0 [])
      (tl lines).

(** The last column whose header is [h]. *)
Fixpoint lastIndexOf (h : string) (headers : list string) : option nat :=
  match headers with
  | [] => None
  | x :: xs =>
      match lastIndexOf h xs with
      | Some k => Some (S k)
      | None => if String.eqb x h then Some 0 else None
      end
  end.

(** Occurrences of the code unit [c] in [s]. *)
Fixpoint countChar (c : Ascii.ascii) (s : string) : nat :=
  match s with
  | EmptyString => 0
  | String x rest => (if Ascii.eqb x c then 1 else 0) + countChar c rest
  end.

End Csv.

(** ** controllers/paymentController.js : payment listings *)
Module Listing.
Import Model.

(** [parseInt(raw, 10) || d]: [NaN] (modelled as [None]) and [0] fall back
    to [d]. *)
Definition intParam (raw : option Z) (d : Z) : Z :=
  match raw with
  | Some n => if (n =? 0)%Z then d else n
  | None => d
  end.

Record Listing := mkListing {
  count : nat;
  total : nat;
  pages : Z;
  currentPage : Z;
  data : list Payment
}.

(** The paging of [getCompanyPayments] and [getEmployeePayments]:
    [matched] are the payments the query matches, in the order of
    [.sort('-date')].  The server refuses a negative [skip] (the handler
    answers 500, here [None]); a negative [limit] returns [|limit|]
    documents. *)
Definition listPayments (matched : list Payment) (rawPage rawLimit : option Z)
    : option Listing :=
  let page := intParam rawPage 1 in
  let limit := intParam rawLimit 10 in
  let skip := ((page - 1) * limit)%Z in
  if (skip <? 0)%Z then None
  else
    let ps := firstn (Z.to_nat (Z.abs limit)) (skipn (Z.to_nat skip) matched) in
    Some (mkListing (length ps) (length matched)
            (Paging.ceilDiv (Z.of_nat (length matched)) limit) page ps).

End Listing.

(** ** controllers/paymentController.js : finalizePayment, setMonthlySalary *)
Module Finalize.
Import Model.

(** Result of [processPayment(...)] (the Paystack transfer): a reference,
    or a thrown error with its message. *)
Inductive PayResult :=
  | PayOk (reference : string)
  | PayError (message : string).

(** The fields [finalizePayment] writes; [failureReason], [rejectedBy] and
    [rejectedAt] have no field in [Payment] and are not tracked. *)
Definition finalizedFields (p : Payment) (st : string) (approvedBy : option nat)
    (approvedAt : option Z) (reference : option string) : Payment :=
  mkPayment (pId p) (pEmployee p) (pEmployer p) (pCompany p) (pAmount p)
    (pDate p) (pCreatedAt p) st (pEfficiency p) approvedBy approvedAt
    (pDeclinedBy p) (pDeclinedAt p) (pDeclineReason p) false reference (pNotes p).

(** [finalizePayment]: the admin review of a payment flagged with
    [requiresAdminReview].  Balances are per company. *)
Definition finalizePayment (w : World) (isAdmin : bool) (userId : nat) (now : Z)
    (paymentId : option nat) (action : option string) (paystack : PayResult)
    : Controllers.Response * World :=
  if negb isAdmin then ((403, "Not authorized to finalize payments")%Z, w)
  else
    match paymentId, action with
    | Some id, Some act =>
        if negb (String.eqb act "approve" || String.eqb act "reject") then
          ((400, "Payment ID and valid action (approve/reject) are required")%Z, w)
        else
          match findById (payments w) id with
          | None => ((404, "Payment not found")%Z, w)
          | Some p =>
              if negb (pRequiresAdminReview p) then
                ((400, "This payment does not require admin review")%Z, w)
              else if String.eqb act "approve" then
                if negb (Qle_bool (pAmount p) (balance w (pCompany p))) then
                  ((400, "Insufficient company balance")%Z, w)
                else
                  match paystack with
                  | PayOk ref =>
                      let p' := finalizedFields p "approved" (Some userId) (Some now)
                                  (Some ref) in
                      ((200, "Payment approved successfully")%Z,
                       mkWorld (savePayment (payments w) p')
                               (debit (balance w) (pCompany p) (pAmount p))
                               (log w ++ [EvTransfer (pEmployee p) (pAmount p * 100)%Q;
                                          EvDebit (pCompany p) (pAmount p);
                                          EvSave id "approved"]))
                  | PayError _ =>
                      let p' := finalizedFields p "failed" (pApprovedBy p) (pApprovedAt p)
                                  (pReference p) in
                      ((200, "Payment approved successfully")%Z,
                       mkWorld (savePayment (payments w) p') (balance w)
                               (log w ++ [EvSave id "failed"]))
                  end
              else
                let p' := finalizedFields p "rejected" (pApprovedBy p) (pApprovedAt p)
                            (pReference p) in
                ((200, "Payment rejected successfully")%Z,
                 mkWorld (savePayment (payments w) p') (balance w)
                         (log w ++ [EvSave id "rejected"]))
          end
    | _, _ => ((400, "Payment ID and valid action (approve/reject) are required")%Z, w)
    end.

End Finalize.

Module Salary.
Import People.

Definition findEmployee (users : list Employee) (id : nat) : option Employee :=
  find (fun e => eId e =? id) users.

Definition saveEmployee (users : list Employee) (e : Employee) : list Employee :=
  map (fun u => if eId u =? eId e then e else u) users.

(** [setMonthlySalary] for a numeric [salary] ([None] when absent); the
    employer's company is [employerCompany]. *)
Definition setMonthlySalary (users : list Employee) (employerCompany : nat)
    (employeeId : option nat) (salary : option Q) : Controllers.Response * list Employee :=
  match employeeId, salary with
  | Some id, Some s =>
      if Qle_bool s 0 then
        ((400, "Valid employee ID and salary amount are required")%Z, users)
      else
        match findEmployee users id with
        | None => ((404, "Employee not found")%Z, users)
        | Some e =>
            if negb (eCompany e =? employerCompany) then
              ((403, "Not authorized to update this employee")%Z, users)
            else
              let workingDaysPerMonth :=
                if length (eWorkingDayNames e) * 4 =? 0 then 20
                else length (eWorkingDayNames e) * 4 in
              let e' := mkEmployee (eId e) (eCompany e) (eEmployer e)
                          (Some (s / inject_Z (Z.of_nat workingDaysPerMonth))%Q) s
                          (eWorkingDayNames e) (eSalary e) (eWorkingDays e)
                          (eHasRemittance e) in
              ((200, "Monthly salary updated successfully")%Z, saveEmployee users e')
        end
  | _, _ => ((400, "Valid employee ID and salary amount are required")%Z, users)
  end.

End Salary.

(** ** Projects: the hourly status job and the employee endpoints *)
Module Projects.
Import People.

(** A project document with the fields the job and the employee endpoints
    use ([assignedEmployees] for the job, [assignees] for the endpoints). *)
Record Project := mkProject {
  prId : nat;
  prStatus : string;
  prStartDate : option Z;
  prEndDate : option Z;
  prTasks : list string;
  prAssignedEmployees : list nat;
  prAssignees : list nat;
  prProgressUpdates : list (nat * string * Z);
  prCompletedDate : option Z;
  prCompletionNotes : option string
}.

Definition withStatus (p : Project) (st : string) : Project :=
  mkProject (prId p) st (prStartDate p) (prEndDate p) (prTasks p)
    (prAssignedEmployees p) (prAssignees p) (prProgressUpdates p)
    (prCompletedDate p) (prCompletionNotes p).

Definition findProject (ps : list Project) (id : nat) : option Project :=
  find (fun p => prId p =? id) ps.

Definition saveProject (ps : list Project) (p : Project) : list Project :=
  map (fun q => if prId q =? prId p then p else q) ps.

(** [project.endDate && dayjs(project.endDate).isBefore(today)] *)
Definition pastDue (today : Z) (p : Project) : bool :=
  match prEndDate p with Some e => (e <? today)%Z | None => false end.

(** [project.status === "planning" && project.startDate &&
    dayjs(project.startDate).isSameOrBefore(today)] *)
Definition startsBy (today : Z) (p : Project) : bool :=
  String.eqb (prStatus p) "planning"
  && match prStartDate p with Some s => (s <=? today)%Z | None => false end.

(** The status the loop body writes, if any. *)
Definition statusUpdate (today : Z) (p : Project) : option string :=
  if pastDue today p then
    Some (if forallb (String.eqb "completed") (prTasks p) then "completed" else "overdue")
  else if startsBy today p then Some "inProgress"
  else None.

(** [User.find({_id: {$in: assigned}})] in collection order, then one
    e-mail each; a failed send throws and ends the job (second component). *)
Fixpoint notifyAll (sendOk : nat -> bool) (recipients : list nat) (log : list Model.Event)
    : list Model.Event * bool :=
  match recipients with
  | [] => (log, false)
  | u :: rest =>
      if sendOk u then notifyAll sendOk rest (log ++ [Model.EvNotify u]) else (log, true)
  end.

Fixpoint projectLoop (today : Z) (users : list nat) (sendOk : nat -> bool)
    (todo : list Project) (ps : list Project) (log : list Model.Event)
    : list Project * list Model.Event :=
  match todo with
  | [] => (ps, log)
  | p :: rest =>
      match statusUpdate today p with
      | None => projectLoop today users sendOk rest ps log
      | Some st =>
          let ps' := saveProject ps (withStatus p st) in
          match notifyAll sendOk
                  (filter (fun u => existsb (Nat.eqb u) (prAssignedEmployees p)) users) log with
          | (log', false) => projectLoop today users sendOk rest ps' log'
          | (log', true) => (ps', log')
          end
      end
  end.

(** [updateProjectStatuses]: the projects in [planning] or [inProgress] at
    the start of the run, in collection order. *)
Definition updateProjectStatuses (today : Z) (users : list nat) (sendOk : nat -> bool)
    (ps : list Project) (log : list Model.Event) : list Project * list Model.Event :=
  projectLoop today users sendOk
    (filter (fun p => String.eqb (prStatus p) "planning"
                      || String.eqb (prStatus p) "inProgress") ps) ps log.

(** Successive hourly runs, each at its time and with its e-mail outcomes. *)
Fixpoint runProjectJobs (runs : list (Z * (nat -> bool))) (users : list nat)
    (ps : list Project) (log : list Model.Event) : list Project * list Model.Event :=
  match runs with
  | [] => (ps, log)
  | (today, sendOk) :: rest =>
      let r := updateProjectStatuses today users sendOk ps log in
      runProjectJobs rest users (fst r) (snd r)
  end.

(** [completeProject] (employee endpoint). *)
Definition completeProject (ps : list Project) (userId : nat) (now : Z)
    (projectId : option nat) (completionNotes : option string)
    : Controllers.Response * list Project :=
  match projectId with
  | None => ((400, "Project ID is required")%Z, ps)
  | Some id =>
      match findProject ps id with
      | None => ((404, "Project not found")%Z, ps)
      | Some p =>
          if negb (existsb (Nat.eqb userId) (prAssignees p)) then
            ((403, "Not authorized to update this project")%Z, ps)
          else
            ((200, "Project marked as completed")%Z,
             saveProject ps (mkProject (prId p) "completed" (prStartDate p) (prEndDate p)
                               (prTasks p) (prAssignedEmployees p) (prAssignees p)
                               (prProgressUpdates p) (Some now) completionNotes))
      end
  end.

(** The [progressReport] field of an attendance document, kept beside the
    attendance records by record id. *)
Record ProgressReport := mkProgressReport {
  rSummary : string;
  rTasksCompleted : list string;
  rChallenges : list string;
  rNextSteps : list string;
  rSubmittedAt : Z
}.

Definition setReport (reports : list (nat * ProgressReport)) (id : nat) (r : ProgressReport)
    : list (nat * ProgressReport) :=
  (id, r) :: filter (fun x => negb (fst x =? id)) reports.

Definition reportOf (reports : list (nat * ProgressReport)) (id : nat)
    : option ProgressReport :=
  option_map snd (find (fun x => fst x =? id) reports).

(** [Attendance.findOne({employee, date in [00:00, 23:59:59.999)})] *)
Definition attendanceOf (db : list Attendance) (emp : nat) (now : Z) : option Attendance :=
  find (fun a => (aEmployee a =? emp) && (dayStart now <=? aDate a)%Z
                 && (aDate a <? dayStart now + dayMs - 1)%Z) db.

(** [submitProgressReport]; an empty summary is falsy like a missing one. *)
Definition submitProgressReport (db : list Attendance) (reports : list (nat * ProgressReport))
    (ps : list Project) (userId : nat) (now : Z) (summary : option string)
    (tasksCompleted challenges nextSteps : option (list string)) (projectId : option nat)
    : Controllers.Response * (list (nat * ProgressReport) * list Project) :=
  match summary with
  | None | Some EmptyString =>
      ((400, "Progress summary is required")%Z, (reports, ps))
  | Some s =>
      match attendanceOf db userId now with
      | None =>
          ((400, "No attendance record for today. Please clock in first.")%Z, (reports, ps))
      | Some a =>
          let reports' :=
            setReport reports (aId a)
              (mkProgressReport s (match tasksCompleted with Some l => l | None => [] end)
                 (match challenges with Some l => l | None => [] end)
                 (match nextSteps with Some l => l | None => [] end) now) in
          match projectId with
          | None => ((200, "Progress report submitted successfully")%Z, (reports', ps))
          | Some pid =>
              match findProject ps pid with
              | None => ((404, "Project not found")%Z, (reports', ps))
              | Some p =>
                  if negb (existsb (Nat.eqb userId) (prAssignees p)) then
                    ((403, "Not authorized to update this project")%Z, (reports', ps))
                  else
                    ((200, "Progress report submitted successfully")%Z,
                     (reports',
                      saveProject ps (mkProject (prId p) (prStatus p) (prStartDate p)
                                        (prEndDate p) (prTasks p) (prAssignedEmployees p)
                                        (prAssignees p)
                                        (prProgressUpdates p ++ [(userId, s, now)])
                                        (prCompletedDate p) (prCompletionNotes p))))
              end
          end
      end
  end.

End Projects.

(** ** jobs/scheduledTasks.js : the other scheduled jobs *)
Module MoreJobs.
Import People.

(** [cleanupOldData]: attendance records dated before [threeMonthsAgo]
    lose their monitoring results; invitations expired before [now] are
    deleted ([$lt] matches no document without [expiresAt]). *)
Record Invitation := mkInvitation { invId : nat; expiresAt : option Z }.

Definition clearResults (a : Attendance) : Attendance :=
  mkAttendance (aId a) (aEmployee a) (aDate a) (clockInTime a) (clockOutTime a) [].

Definition cleanupOldData (threeMonthsAgo now : Z) (db : list Attendance)
    (invitations : list Invitation) : list Attendance * list Invitation :=
  (map (fun a => if (aDate a <? threeMonthsAgo)%Z then clearResults a else a) db,
   filter (fun i => match expiresAt i with
                    | Some t => negb (t <? now)%Z
                    | None => true
                    end) invitations).

(** [checkExpiringDocuments] *)
Record Document := mkDocument {
  dId : nat;
  dEmployee : nat;
  dType : string;
  dExpiryDate : option Z;
  dNotificationSent : option bool
}.

(** [expiryDate: {$exists, $ne: null, $lte: thirtyDaysFromNow, $gt: now},
    notificationSent: {$ne: true}] *)
Definition expiringSoon (now thirtyDaysFromNow : Z) (d : Document) : bool :=
  match dExpiryDate d with
  | Some t => (t <=? thirtyDaysFromNow)%Z && (now <? t)%Z
  | None => false
  end
  && negb (match dNotificationSent d with Some true => true | _ => false end).

Definition markSent (d : Document) : Document :=
  mkDocument (dId d) (dEmployee d) (dType d) (dExpiryDate d) (Some true).

Definition saveDocument (docs : list Document) (d : Document) : list Document :=
  map (fun x => if dId x =? dId d then d else x) docs.

(** The loop: the expiry e-mail (logged as the document id; a failed send
    throws and ends the job), then [notificationSent = true] and save. *)
Fixpoint expiryLoop (sendOk : nat -> bool) (todo docs : list Document) (log : list nat)
    : list Document * list nat :=
  match todo with
  | [] => (docs, log)
  | d :: rest =>
      if sendOk (dId d) then
        expiryLoop sendOk rest (saveDocument docs (markSent d)) (log ++ [dId d])
      else (docs, log)
  end.

Definition checkExpiringDocuments (now thirtyDaysFromNow : Z) (sendOk : nat -> bool)
    (docs : list Document) (log : list nat) : list Document * list nat :=
  expiryLoop sendOk (filter (expiringSoon now thirtyDaysFromNow) docs) docs log.

Fixpoint runExpiryChecks (runs : list (Z * Z * (nat -> bool))) (docs : list Document)
    (log : list nat) : list Document * list nat :=
  match runs with
  | [] => (docs, log)
  | (now, horizon, sendOk) :: rest =>
      let r := checkExpiringDocuments now horizon sendOk docs log in
      runExpiryChecks rest (fst r) (snd r)
  end.

(** [sendEfficiencyReports]: one row per active employee of a company. *)
Record DailyReport := mkDailyReport {
  drEmployee : nat;
  drDate : Z;
  drTasks : list string;
  drSummary : string
}.

Record ReportRow := mkRow {
  rowEmployee : nat;
  rowEfficiency : Q;
  rowStatus : string;
  rowWorkingHours : Q;
  rowTasksCompleted : nat;
  rowTasksInProgress : nat;
  rowTasksBlocked : nat;
  rowSummary : string
}.

Definition onDay (today d : Z) : bool := (today <=? d)%Z && (d <? today + dayMs)%Z.

Definition countStatus (st : string) (tasks : list string) : nat :=
  length (filter (String.eqb st) tasks).

(** The rows of one company's report; [workingHours] is the value of the
    [toFixed(2)] string. *)
Definition reportData (employees : list nat) (db : list Attendance)
    (reports : list DailyReport) (today : Z) : list ReportRow :=
  let attendanceRecords :=
    filter (fun a => existsb (Nat.eqb (aEmployee a)) employees && onDay today (aDate a)) db in
  let progressReports :=
    filter (fun r => existsb (Nat.eqb (drEmployee r)) employees && onDay today (drDate r))
      reports in
  map (fun e =>
         let attendance := find (fun a => aEmployee a =? e) attendanceRecords in
         let progressReport := find (fun r => drEmployee r =? e) progressReports in
         let '(efficiency, clockInStatus, workingHours) :=
           match attendance with
           | None => (0%Q, "Absent", 0%Q)
           | Some a =>
               let eff := Jobs.attendanceEfficiency a in
               match clockInTime a, clockOutTime a with
               | Some i, Some o =>
                   (eff, "Present", Helpers.toFixed2 (inject_Z (o - i) / inject_Z hourMs)%Q)
               | Some _, None => (eff, "Working (No Clock Out)", 0%Q)
               | None, _ => (eff, "Absent", 0%Q)
               end
           end in
         match progressReport with
         | Some r =>
             mkRow e efficiency clockInStatus workingHours
               (countStatus "completed" (drTasks r)) (countStatus "inProgress" (drTasks r))
               (countStatus "blocked" (drTasks r)) (drSummary r)
         | None =>
             mkRow e efficiency clockInStatus workingHours 0 0 0 "No progress report submitted"
         end) employees.

(** [scheduleEmployeeMonitoring] *)
Record WorkSchedule := mkSchedule {
  wsStartTime : nat;
  wsEndTime : nat;
  wsBreaks : list Helpers.BreakPeriod;
  wsWorkingDays : list nat
}.

(** [monitoringJobs.set(key, jobs)] on a [Map]: overwrite in place or
    append. *)
Fixpoint mapSet (key : nat) (v : list nat) (m : list (nat * list nat)) : list (nat * list nat) :=
  match m with
  | [] => [(key, v)]
  | (k, x) :: rest => if k =? key then (k, v) :: rest else (k, x) :: mapSet key v rest
  end.

(** The jobs map after the run, each employee with the minutes its cron
    jobs fire at; the map is cleared first.  [draws k] are the
    [Math.random] draws of the [k]-th call of the planner. *)
Fixpoint scheduleLoop (dayOfWeek : nat) (draws : nat -> nat -> nat) (k : nat)
    (employees : list (nat * option WorkSchedule)) (jobs : list (nat * list nat))
    : list (nat * list nat) :=
  match employees with
  | [] => jobs
  | (id, ws) :: rest =>
      match ws with
      | Some s =>
          if existsb (Nat.eqb dayOfWeek) (wsWorkingDays s) then
            let monitoringTimes :=
              Helpers.generateRandomMonitoringTimes (draws k) (wsStartTime s) (wsEndTime s)
                (wsBreaks s) 10 in
            scheduleLoop dayOfWeek draws (S k) rest (mapSet id monitoringTimes jobs)
          else scheduleLoop dayOfWeek draws k rest jobs
      | None => scheduleLoop dayOfWeek draws k rest jobs
      end
  end.

Definition scheduleEmployeeMonitoring (dayOfWeek : nat) (draws : nat -> nat -> nat)
    (employees : list (nat * option WorkSchedule)) (previous : list (nat * list nat))
    : list (nat * list nat) :=
  scheduleLoop dayOfWeek draws 0 employees [].

End MoreJobs.

(* ================================================================== *)
(** * Properties *)

(** ** The planner *)
Module PlannerFacts.
Import Helpers.

Lemma removeAt_perm : forall l k d,
  k < length l -> Permutation l (nth k l d :: removeAt k l).
Proof.
  induction l as [|h t IH]; intros k d Hk; simpl in Hk; [lia|].
  destruct k as [|k]; simpl; [reflexivity|].
  eapply perm_trans; [apply perm_skip, (IH k d); lia|].
  apply perm_swap.
Qed.

Lemma pickLoop_perm : forall n draw i all acc,
  n <= length all ->
  exists rest, Permutation (acc ++ all) (pickLoop draw i n all acc ++ rest)
            /\ length (pickLoop draw i n all acc) = length acc + n.
Proof.
  induction n as [|n IH]; intros draw i all acc Hn; simpl.
  - exists all. split; [reflexivity | lia].
  - set (k := draw i mod length all).
    assert (Hk : k < length all) by (apply Nat.mod_upper_bound; lia).
    pose proof (removeAt_perm all k 0 Hk) as HP.
    pose proof (Permutation_length HP) as HL; simpl in HL.
    destruct (IH draw (S i) (removeAt k all) (acc ++ [nth k all 0]))
      as [rest [Hr Hlen]]; [lia|].
    exists rest. split.
    + eapply perm_trans; [apply Permutation_app_head, HP|].
      rewrite <- app_assoc in Hr. exact Hr.
    + rewrite Hlen, length_app. simpl. lia.
Qed.

Lemma HdRel_insertTime : forall h x t,
  h <= x -> HdRel le h t -> HdRel le h (insertTime x t).
Proof.
  intros h x [|y t] Hhx Hd; simpl; [constructor; exact Hhx|].
  destruct (x <=? y); constructor; [exact Hhx|inversion Hd; assumption].
Qed.

Lemma insertTime_sorted : forall l x, Sorted le l -> Sorted le (insertTime x l).
Proof.
  induction l as [|h t IH]; intros x Hs; simpl.
  - repeat constructor.
  - inversion Hs as [|? ? Ht Hd]; subst.
    destruct (x <=? h) eqn:E.
    + apply Nat.leb_le in E. constructor; [exact Hs | constructor; exact E].
    + apply Nat.leb_gt in E. constructor; [apply IH, Ht|].
      apply HdRel_insertTime; [lia | exact Hd].
Qed.

Lemma sortTimes_sorted : forall l, Sorted le (sortTimes l).
Proof.
  induction l; simpl; [constructor | apply insertTime_sorted; assumption].
Qed.

Lemma insertTime_perm : forall l x, Permutation (x :: l) (insertTime x l).
Proof.
  induction l as [|h t IH]; intros x; simpl; [reflexivity|].
  destruct (x <=? h); [reflexivity|].
  eapply perm_trans; [apply perm_swap | apply perm_skip, IH].
Qed.

Lemma sortTimes_perm : forall l, Permutation l (sortTimes l).
Proof.
  induction l as [|h t IH]; simpl; [reflexivity|].
  eapply perm_trans; [apply perm_skip, IH | apply insertTime_perm].
Qed.

Lemma inNoBreak_spec : forall m bs,
  inNoBreak m bs = true <->
  (forall b, In b bs -> ~ (startTime b < m < endTime b)).
Proof.
  intros m bs; induction bs as [|b bs IH]; simpl.
  - split; [intros _ b []| reflexivity].
  - destruct ((startTime b <? m) && (m <? endTime b)) eqn:E.
    + apply andb_true_iff in E as [E1 E2].
      apply Nat.ltb_lt in E1, E2.
      split; [discriminate|]. intros H. exfalso. apply (H b); [left; reflexivity|lia].
    + rewrite IH. split.
      * intros H b' [<-|Hin]; [|apply H, Hin].
        apply andb_false_iff in E as [E|E]; apply Nat.ltb_ge in E; lia.
      * intros H b' Hin. apply H. right. exact Hin.
Qed.

Lemma map_add_seq : forall n s k,
  map (fun i => s + i) (seq k n) = seq (s + k) n.
Proof.
  induction n as [|n IH]; intros s k; simpl; [reflexivity|].
  rewrite IH. f_equal. f_equal. lia.
Qed.

Lemma allMinutesOf_spec : forall ws we bs m,
  In m (allMinutesOf ws we bs) <->
  ws <= m <= we /\ (forall b, In b bs -> ~ (startTime b < m < endTime b)).
Proof.
  intros ws we bs m. unfold allMinutesOf.
  rewrite filter_In, map_add_seq, in_seq, Nat.add_0_r.
  unfold isWorkingHour. rewrite <- inNoBreak_spec.
  destruct ((m <? ws) || (we <? m)) eqn:E.
  - apply orb_true_iff in E as [E|E]; apply Nat.ltb_lt in E; split;
      intros [H1 H2]; try discriminate; lia.
  - apply orb_false_iff in E as [E1 E2]; apply Nat.ltb_ge in E1, E2.
    split; intros [H1 H2]; (split; [lia | exact H2]).
Qed.

Lemma allMinutesOf_NoDup : forall ws we bs, NoDup (allMinutesOf ws we bs).
Proof.
  intros. unfold allMinutesOf. apply NoDup_filter.
  rewrite map_add_seq. apply seq_NoDup.
Qed.

Lemma pickLoop_incl_NoDup : forall draw all n, n <= length all -> NoDup all ->
  NoDup (pickLoop draw 0 n all []) /\
  (forall m, In m (pickLoop draw 0 n all []) -> In m all) /\
  length (pickLoop draw 0 n all []) = n.
Proof.
  intros draw all n Hn Hnd.
  destruct (pickLoop_perm n draw 0 all [] Hn) as [rest [HP HL]].
  simpl in HP, HL. split; [|split].
  - apply NoDup_app_remove_r with rest. eapply Permutation_NoDup; eassumption.
  - intros m Hm. apply (Permutation_in m (Permutation_sym HP)).
    apply in_or_app. left. exact Hm.
  - exact HL.
Qed.

End PlannerFacts.

(** C5 (as stated): for valid inputs every instant lies in the half-open
    window [workStart, workEnd) and outside every break [start, end), the
    list is duplicate-free and ascending, and its length is
    min(targetCount, number of such minutes).  The code includes the minute
    [workEnd] itself: a window 09:00-09:01 yields both 09:00 and 09:01. *)
Lemma planner_half_open_counterexample :
  ~ (forall draw ws we bs count,
       ws < we ->
       (forall b, In b bs -> ws <= Helpers.startTime b < Helpers.endTime b
                             /\ Helpers.endTime b <= we) ->
       let r := Helpers.generateRandomMonitoringTimes draw ws we bs count in
       (forall m, In m r -> ws <= m < we /\
          (forall b, In b bs -> ~ (Helpers.startTime b <= m < Helpers.endTime b))) /\
       NoDup r /\ Sorted le r /\
       length r = Nat.min count
         (length (filter (fun m => forallb (fun b =>
                     negb ((Helpers.startTime b <=? m) && (m <? Helpers.endTime b))) bs)
                  (seq ws (we - ws))))).
Proof.
  intros H.
  destruct (H (fun _ => 0) 540 541 [] 10) as [Hin _];
    [lia | intros b [] |].
  assert (Hr : Helpers.generateRandomMonitoringTimes (fun _ => 0) 540 541 [] 10
               = [540; 541]) by reflexivity.
  rewrite Hr in Hin.
  destruct (Hin 541) as [[_ Hlt] _]; [right; left; reflexivity | lia].
Qed.

(** C5 (amended): for every input and every outcome of the random draws,
    the planner returns instants of [allMinutesOf], i.e. minutes [m] with
    workStart <= m <= workEnd (both ends included) that are not strictly
    inside any break (a break's own start and end minutes stay eligible);
    the list is duplicate-free and sorted ascending, and its length is
    min(count, number of eligible minutes). *)
Theorem planner_amended : forall draw ws we bs count,
  let r := Helpers.generateRandomMonitoringTimes draw ws we bs count in
  (forall m, In m (Helpers.allMinutesOf ws we bs) <->
     ws <= m <= we /\
     (forall b, In b bs -> ~ (Helpers.startTime b < m < Helpers.endTime b))) /\
  NoDup (Helpers.allMinutesOf ws we bs) /\
  (forall m, In m r -> In m (Helpers.allMinutesOf ws we bs)) /\
  NoDup r /\ Sorted le r /\
  length r = Nat.min count (length (Helpers.allMinutesOf ws we bs)).
Proof.
  intros draw ws we bs count r.
  pose proof (PlannerFacts.allMinutesOf_NoDup ws we bs) as Hnd.
  destruct (PlannerFacts.pickLoop_incl_NoDup draw (Helpers.allMinutesOf ws we bs)
              (Nat.min count (length (Helpers.allMinutesOf ws we bs)))
              ltac:(lia) Hnd) as [Hnd' [Hincl Hlen]].
  pose proof (PlannerFacts.sortTimes_perm
                (Helpers.pickLoop draw 0
                   (Nat.min count (length (Helpers.allMinutesOf ws we bs)))
                   (Helpers.allMinutesOf ws we bs) [])) as HP.
  unfold r, Helpers.generateRandomMonitoringTimes.
  split; [apply PlannerFacts.allMinutesOf_spec|].
  split; [exact Hnd|].
  split; [intros m Hm; apply Hincl, (Permutation_in m (Permutation_sym HP)), Hm|].
  split; [eapply Permutation_NoDup; eassumption|].
  split; [apply PlannerFacts.sortTimes_sorted|].
  rewrite <- (Permutation_length HP). exact Hlen.
Qed.

(** ** Rounding and the numeric helpers *)
Module NumericFacts.
Import Helpers.

Lemma round_half_up_close : forall x : Q,
  (inject_Z (Qfloor (x * 100 + (1 # 2))) / 100 - x <= 1 # 200)%Q /\
  (x - inject_Z (Qfloor (x * 100 + (1 # 2))) / 100 <= 1 # 200)%Q.
Proof.
  intros x.
  pose proof (Qfloor_le (x * 100 + (1 # 2))) as H1.
  pose proof (Qlt_floor (x * 100 + (1 # 2))) as H2.
  rewrite inject_Z_plus in H2. change (inject_Z 1) with 1%Q in H2.
  set (k := inject_Z (Qfloor (x * 100 + (1 # 2))%Q)) in *.
  unfold Qdiv. change (/ 100)%Q with (1 # 100)%Q.
  split; lra.
Qed.

Lemma toFixed2_close : forall x : Q,
  (toFixed2 x - x <= 1 # 200)%Q /\ (x - toFixed2 x <= 1 # 200)%Q.
Proof.
  intros x. unfold toFixed2.
  destruct (Qle_bool 0 x); cbn [negb]; [apply round_half_up_close|].
  destruct (round_half_up_close (- x)) as [H1 H2].
  set (k := (inject_Z (Qfloor (- x * 100 + (1 # 2))) / 100)%Q) in *.
  split; lra.
Qed.

Lemma toFixed2_hundredths : forall x : Q, exists k : Z, (toFixed2 x == inject_Z k / 100)%Q.
Proof.
  intros x. unfold toFixed2.
  destruct (Qle_bool 0 x); cbn [negb].
  - eexists. reflexivity.
  - exists (- Qfloor (- x * 100 + (1 # 2)))%Z. rewrite inject_Z_opp.
    unfold Qdiv. ring.
Qed.

Lemma toFixed2_range : forall x : Q, (0 <= x <= 100)%Q -> (0 <= toFixed2 x <= 100)%Q.
Proof.
  intros x [H0 H100]. unfold toFixed2.
  assert (E : Qle_bool 0 x = true) by (apply Qle_bool_iff; exact H0).
  rewrite E; cbn [negb].
  pose proof (Qfloor_resp_le 0 (x * 100 + (1 # 2)) ltac:(lra)) as L.
  pose proof (Qfloor_resp_le (x * 100 + (1 # 2)) (20001 # 2) ltac:(lra)) as U.
  change (Qfloor 0) with 0%Z in L. change (Qfloor (20001 # 2)) with 10000%Z in U.
  rewrite Zle_Qle in L, U.
  change (inject_Z 0) with 0%Q in L. change (inject_Z 10000) with 10000%Q in U.
  unfold Qdiv. change (/ 100)%Q with (1 # 100)%Q.
  split; lra.
Qed.

Lemma ratio_range : forall p t : nat, p <= t -> 0 < t ->
  (0 <= inject_Z (Z.of_nat p) / inject_Z (Z.of_nat t) * 100 <= 100)%Q.
Proof.
  intros p t Hpt Ht.
  assert (Tpos : (0 < inject_Z (Z.of_nat t))%Q).
  { change 0%Q with (inject_Z 0). rewrite <- Zlt_Qlt. lia. }
  assert (Pt : (inject_Z (Z.of_nat p) <= inject_Z (Z.of_nat t))%Q).
  { rewrite <- Zle_Qle. lia. }
  assert (P0 : (0 <= inject_Z (Z.of_nat p))%Q).
  { change 0%Q with (inject_Z 0). rewrite <- Zle_Qle. lia. }
  assert (A : (0 <= inject_Z (Z.of_nat p) / inject_Z (Z.of_nat t))%Q).
  { apply Qle_shift_div_l; [exact Tpos | lra]. }
  assert (B : (inject_Z (Z.of_nat p) / inject_Z (Z.of_nat t) <= 1)%Q).
  { apply Qle_shift_div_r; [exact Tpos | lra]. }
  split; lra.
Qed.

End NumericFacts.

(** C4 (as stated): the score is 30 for both clock times plus
    round(50 x present / planned) plus 20 for a progress report, e.g. 90 for
    clock-in and clock-out, 8 of 10 present and one report.  The efficiency
    the payment pass computes ignores clock times and reports: that
    attendance scores 80. *)
Lemma efficiency_scenario_counterexample :
  ~ (forall (a : People.Attendance) (progressReports : nat),
       People.isSome (People.clockInTime a) = true ->
       People.isSome (People.clockOutTime a) = true ->
       length (People.monitoringResults a) = 10 ->
       length (filter People.isPresent (People.monitoringResults a)) = 8 ->
       1 <= progressReports ->
       (Jobs.attendanceEfficiency a == 90)%Q).
Proof.
  intros H.
  set (r := fun b => People.mkResult 0 b None).
  specialize (H (People.mkAttendance 1 1 0 (Some 32400000%Z) (Some 61200000%Z)
                   [r true; r true; r true; r true; r false;
                    r true; r true; r true; r true; r false]) 1
                eq_refl eq_refl eq_refl eq_refl (le_n 1)).
  vm_compute in H. discriminate H.
Qed.

(** C4 (amended): the efficiency of a day is 0 when the attendance record
    has no monitoring results and otherwise present / recorded results x 100
    rounded to two decimals; it is always in [0, 100] and depends on the
    monitoring results only (not on clock times or progress reports). *)
Theorem efficiency_amended : forall a : People.Attendance,
  let results := People.monitoringResults a in
  let present := length (filter People.isPresent results) in
  (0 <= Jobs.attendanceEfficiency a <= 100)%Q /\
  (results = [] -> Jobs.attendanceEfficiency a = 0%Q) /\
  (results <> [] ->
     Jobs.attendanceEfficiency a =
       Helpers.toFixed2 (inject_Z (Z.of_nat present)
                         / inject_Z (Z.of_nat (length results)) * 100) /\
     (Jobs.attendanceEfficiency a
        - inject_Z (Z.of_nat present) / inject_Z (Z.of_nat (length results)) * 100
        <= 1 # 200)%Q /\
     (inject_Z (Z.of_nat present) / inject_Z (Z.of_nat (length results)) * 100
        - Jobs.attendanceEfficiency a <= 1 # 200)%Q /\
     (exists k : Z, Jobs.attendanceEfficiency a == inject_Z k / 100)%Q) /\
  (forall b, People.monitoringResults b = results ->
     Jobs.attendanceEfficiency b = Jobs.attendanceEfficiency a).
Proof.
  intros a results present.
  assert (Hle : present <= length results) by apply filter_length_le.
  unfold Jobs.attendanceEfficiency, Helpers.calculateEfficiency. fold results present.
  split; [|split; [|split]].
  - destruct (length results =? 0) eqn:E; [lra|].
    apply NumericFacts.toFixed2_range, NumericFacts.ratio_range;
      [exact Hle | apply Nat.eqb_neq in E; lia].
  - intros ->. reflexivity.
  - intros Hne.
    assert (E : (length results =? 0) = false).
    { apply Nat.eqb_neq. destruct results; [contradiction | discriminate]. }
    rewrite E.
    destruct (NumericFacts.toFixed2_close
                (inject_Z (Z.of_nat present) / inject_Z (Z.of_nat (length results)) * 100))
      as [C1 C2].
    split; [reflexivity | split; [exact C1 | split; [exact C2|]]].
    apply NumericFacts.toFixed2_hundredths.
  - intros b Hb. rewrite Hb. reflexivity.
Qed.

(** C10: [calculateDailyPayRate] is total: it returns 0 when either argument
    is missing or zero, and otherwise monthlySalary / workingDaysPerMonth
    rounded to two decimals (within half a hundredth), so the result is
    always a finite decimal with two fraction digits. *)
Theorem daily_pay_rate_total : forall monthlySalary workingDaysPerMonth : option Q,
  (Helpers.falsy monthlySalary = true \/ Helpers.falsy workingDaysPerMonth = true ->
     Helpers.calculateDailyPayRate monthlySalary workingDaysPerMonth = 0%Q) /\
  (forall a b, monthlySalary = Some a -> workingDaysPerMonth = Some b ->
     ~ (a == 0)%Q -> ~ (b == 0)%Q ->
     Helpers.calculateDailyPayRate monthlySalary workingDaysPerMonth
       = Helpers.toFixed2 (a / b) /\
     (Helpers.calculateDailyPayRate monthlySalary workingDaysPerMonth - a / b
        <= 1 # 200)%Q /\
     (a / b - Helpers.calculateDailyPayRate monthlySalary workingDaysPerMonth
        <= 1 # 200)%Q) /\
  (exists k : Z,
     Helpers.calculateDailyPayRate monthlySalary workingDaysPerMonth == inject_Z k / 100)%Q.
Proof.
  intros ms wd. unfold Helpers.calculateDailyPayRate.
  split; [|split].
  - intros [H|H]; rewrite H; [reflexivity|]. rewrite orb_true_r. reflexivity.
  - intros a b -> -> Ha Hb. simpl.
    assert (Ea : Qeq_bool a 0 = false).
    { destruct (Qeq_bool a 0) eqn:E; [apply Qeq_bool_iff in E; contradiction | reflexivity]. }
    assert (Eb : Qeq_bool b 0 = false).
    { destruct (Qeq_bool b 0) eqn:E; [apply Qeq_bool_iff in E; contradiction | reflexivity]. }
    rewrite Ea, Eb. simpl.
    split; [reflexivity | apply NumericFacts.toFixed2_close].
  - destruct (Helpers.falsy ms || Helpers.falsy wd);
      [exists 0%Z; reflexivity|].
    destruct ms as [a|], wd as [b|]; try (exists 0%Z; reflexivity).
    apply NumericFacts.toFixed2_hundredths.
Qed.

Lemma daily_pay_rate_total_witness :
  Helpers.calculateDailyPayRate (Some 0%Q) (Some 20%Q) = 0%Q /\
  Helpers.calculateDailyPayRate (Some 100000%Q) (Some 20%Q) = Helpers.toFixed2 (100000 / 20)%Q.
Proof.
  split.
  - apply (proj1 (daily_pay_rate_total (Some 0%Q) (Some 20%Q))). left. reflexivity.
  - apply (proj1 (proj2 (daily_pay_rate_total (Some 100000%Q) (Some 20%Q))) 100000%Q 20%Q
             eq_refl eq_refl); vm_compute; discriminate.
Defined.

(** ** Payment store *)
Module StoreFacts.
Import Model.

Lemma findById_id : forall ps id q, findById ps id = Some q -> pId q = id.
Proof.
  intros ps id q H. unfold findById in H.
  apply find_some in H as [_ H]. apply Nat.eqb_eq in H. exact H.
Qed.

Lemma findById_save_other : forall ps p' id,
  pId p' <> id -> findById (savePayment ps p') id = findById ps id.
Proof.
  intros ps p' id Hne. unfold findById, savePayment.
  induction ps as [|q ps IH]; simpl; [reflexivity|].
  destruct (pId q =? pId p') eqn:E; simpl.
  - apply Nat.eqb_eq in E.
    assert (F : (pId p' =? id) = false) by (apply Nat.eqb_neq; exact Hne).
    assert (F' : (pId q =? id) = false) by (apply Nat.eqb_neq; lia).
    rewrite F, F'. exact IH.
  - destruct (pId q =? id); [reflexivity | exact IH].
Qed.

Lemma findById_save_same : forall ps p' q,
  findById ps (pId p') = Some q -> findById (savePayment ps p') (pId p') = Some p'.
Proof.
  intros ps p' q. unfold findById, savePayment.
  induction ps as [|r ps IH]; simpl; [discriminate|].
  destruct (pId r =? pId p') eqn:E; simpl.
  - intros _. rewrite Nat.eqb_refl. reflexivity.
  - rewrite E. exact IH.
Qed.

Lemma findById_none : forall ps id, ~ In id (map pId ps) -> findById ps id = None.
Proof.
  intros ps id H. unfold findById.
  induction ps as [|q ps IH]; simpl in *; [reflexivity|].
  destruct (pId q =? id) eqn:E.
  - apply Nat.eqb_eq in E. exfalso. apply H. left. exact E.
  - apply IH. intros Hin. apply H. right. exact Hin.
Qed.

Lemma findById_filter : forall (h : Payment -> bool) ps id,
  NoDup (map pId ps) ->
  findById (filter h ps) id =
    match findById ps id with Some q => if h q then Some q else None | None => None end.
Proof.
  intros h ps id Hnd.
  induction ps as [|q ps IH]; simpl; [reflexivity|].
  inversion Hnd as [|? ? Hnin Hnd']; subst.
  unfold findById in *. simpl.
  destruct (h q) eqn:Hq; simpl.
  - destruct (pId q =? id); [rewrite Hq; reflexivity | apply IH, Hnd'].
  - destruct (pId q =? id) eqn:E.
    + apply Nat.eqb_eq in E. subst id. rewrite Hq.
      pose proof (findById_none (filter h ps) (pId q)) as N. unfold findById in N.
      apply N. intros Hin. apply Hnin.
      apply in_map_iff in Hin as [r [Hr Hin]]. apply filter_In in Hin as [Hin _].
      rewrite <- Hr. apply in_map, Hin.
    + apply IH, Hnd'.
Qed.

Lemma savePayment_ids : forall ps p' q,
  findById ps (pId p') = Some q -> map pId (savePayment ps p') = map pId ps.
Proof.
  intros ps p' q _. unfold savePayment. rewrite map_map.
  apply map_ext. intros r. destruct (pId r =? pId p') eqn:E; [apply Nat.eqb_eq in E; auto|reflexivity].
Qed.

End StoreFacts.





(** C2 (code defect): approving a payment that is no longer [pending] should
    be a "not in pending state" error with no change.  The employer endpoint
    [processDailyPayment] has no status check: a [declined] payment (still
    within its one-hour window) is re-approved, answering 200 and storing
    status [approved].  Its sibling [PaymentService.approvePayment] rejects
    the same call with "Payment is not in pending status" and changes
    nothing. *)
Theorem approve_not_pending_defect :
  Controllers.processDailyPayment (Sample.world1 "declined") (fun _ => 30) 20 1000%Z
    (Controllers.mkRequest (Some 1) (Some "approve") None)
  = ((200, "Payment approved successfully")%Z,
     Model.mkWorld [Controllers.approveFields (Sample.pay1 "declined") 20 1000%Z]
       (Model.balance (Sample.world1 "declined")) [Model.EvSave 1 "approved"]) /\
  Model.pStatus (Controllers.approveFields (Sample.pay1 "declined") 20 1000%Z) = "approved" /\
  Service.approvePayment (Sample.world1 "declined") 1 Sample.employer20 1000%Z (Some "TRF_1")
  = (Service.Failed "Failed to approve payment" "Payment is not in pending status",
     Sample.world1 "declined").
Proof. repeat split. Qed.




(** C3 (code defect): payment creation should be idempotent per (worker,
    day) whichever entry point creates it.  The admin endpoint skips an
    employee already paid today, so running it twice leaves one payment; the
    scheduled job has no such check, so the 18:00 job run after the admin
    endpoint ran at 17:00 creates a second payment for the same worker and
    day. *)
Theorem create_idempotency_defect :
  let admin w := snd (Controllers.processDailyPayments w true (Sample.day0 + 61200000)%Z 1
                        [Sample.attendance10] [Sample.employee10]) in
  let cron w := Jobs.processDailyPayments (Sample.day0 + 64800000)%Z 1
                  [Sample.attendance10] [Sample.employee10] w in
  length (Sample.paymentsOn (Model.payments (admin Sample.world0)) 10 Sample.day0) = 1 /\
  length (Sample.paymentsOn (Model.payments (admin (admin Sample.world0))) 10 Sample.day0) = 1 /\
  length (Sample.paymentsOn (Model.payments (cron (admin Sample.world0))) 10 Sample.day0) = 2 /\
  length (Sample.paymentsOn (Model.payments (cron (cron Sample.world0))) 10 Sample.day0) = 2.
Proof. vm_compute. repeat split. Qed.

(** ** The escalation sweep *)
Module SweepFacts.
Import Model Jobs.

Section Loop.
Variable outcome : nat -> ServiceOutcome.
Variable admins : list nat.

(** The document the loop writes for a payment it processes. *)
Definition settled (p : Payment) : Payment :=
  match outcome (pId p) with
  | SvcSuccess ref => paidFields p ref
  | SvcFailure err => failedFields p err
  | SvcThrow => p
  end.

Lemma payPending_untouched : forall todo w id,
  ~ In id (map pId todo) ->
  findById (payments (fst (payPending outcome admins todo w))) id = findById (payments w) id.
Proof.
  induction todo as [|p rest IH]; intros w id Hnin; simpl; [reflexivity|].
  simpl in Hnin.
  destruct (outcome (pId p)) as [ref|err|]; simpl.
  - rewrite IH by tauto. apply StoreFacts.findById_save_other. simpl. intuition.
  - rewrite IH by tauto. apply StoreFacts.findById_save_other. simpl. intuition.
  - reflexivity.
Qed.

Lemma payPending_done : forall todo w,
  NoDup (map pId todo) ->
  (forall q, In q todo -> findById (payments w) (pId q) = Some q) ->
  (forall q, In q todo -> outcome (pId q) <> SvcThrow) ->
  snd (payPending outcome admins todo w) = false /\
  forall id, findById (payments (fst (payPending outcome admins todo w))) id =
    match findById todo id with Some q => Some (settled q) | None => findById (payments w) id end.
Proof.
  induction todo as [|p rest IH]; intros w Hnd Hcur Hnt; cbn [payPending];
    [split; reflexivity|].
  inversion Hnd as [|? ? Hnin Hnd']; subst.
  assert (Hp : findById (payments w) (pId p) = Some p) by (apply Hcur; left; reflexivity).
  assert (Hrest : forall w1, (forall i, i <> pId p -> findById (payments w1) i = findById (payments w) i) ->
            forall q, In q rest -> findById (payments w1) (pId q) = Some q).
  { intros w1 Hw1 q Hq. rewrite Hw1; [apply Hcur; right; exact Hq|].
    intros E. apply Hnin. rewrite <- E. apply in_map, Hq. }
  assert (Hnt' : forall q, In q rest -> outcome (pId q) <> SvcThrow) by (intros; apply Hnt; right; assumption).
  assert (Hfind : forall id, findById (p :: rest) id =
            if pId p =? id then Some p else findById rest id) by reflexivity.
  unfold settled.
  destruct (outcome (pId p)) as [ref|err|] eqn:Ho.
  - set (w1 := mkWorld (savePayment (payments w) (paidFields p ref)) (balance w)
                 (log w ++ [EvSave (pId p) "paid"; EvNotify (pEmployee p)])).
    destruct (IH w1 Hnd') as [Hs Hid];
      [apply Hrest; intros i Hi; apply StoreFacts.findById_save_other; exact (not_eq_sym Hi) | exact Hnt' |].
    split; [exact Hs|]. intros id. rewrite Hid, Hfind.
    destruct (pId p =? id) eqn:E.
    + apply Nat.eqb_eq in E. subst id.
      rewrite StoreFacts.findById_none by exact Hnin.
      rewrite Ho. unfold w1. simpl. refine (StoreFacts.findById_save_same _ _ p _). exact Hp.
    + destruct (findById rest id); [reflexivity|].
      unfold w1. simpl. apply StoreFacts.findById_save_other. apply Nat.eqb_neq, E.
  - set (w1 := mkWorld (savePayment (payments w) (failedFields p err)) (balance w)
                 (log w ++ EvSave (pId p) "failed" :: map EvNotify admins)).
    destruct (IH w1 Hnd') as [Hs Hid];
      [apply Hrest; intros i Hi; apply StoreFacts.findById_save_other; exact (not_eq_sym Hi) | exact Hnt' |].
    split; [exact Hs|]. intros id. rewrite Hid, Hfind.
    destruct (pId p =? id) eqn:E.
    + apply Nat.eqb_eq in E. subst id.
      rewrite StoreFacts.findById_none by exact Hnin.
      rewrite Ho. unfold w1. simpl. refine (StoreFacts.findById_save_same _ _ p _). exact Hp.
    + destruct (findById rest id); [reflexivity|].
      unfold w1. simpl. apply StoreFacts.findById_save_other. apply Nat.eqb_neq, E.
  - exfalso. apply (Hnt p); [left; reflexivity | exact Ho].
Qed.

End Loop.

Lemma handle_payments : forall w now admins outcome,
  payments (handlePendingPayments w now admins outcome) =
  payments (fst (payPending outcome admins
                   (filter (overdue "pending_approval" (now - People.hourMs)) (payments w)) w)).
Proof.
  intros. unfold handlePendingPayments.
  destruct (payPending _ _ _ _) as [w1 []]; [reflexivity|].
  destruct (filter _ _); reflexivity.
Qed.

Lemma NoDup_ids_filter : forall (h : Payment -> bool) ps,
  NoDup (map pId ps) -> NoDup (map pId (filter h ps)).
Proof.
  intros h ps. induction ps as [|q ps IH]; intros Hnd; simpl; [constructor|].
  inversion Hnd as [|? ? Hnin Hnd']; subst.
  destruct (h q); simpl; [|apply IH, Hnd'].
  constructor; [|apply IH, Hnd'].
  intros Hin. apply Hnin. apply in_map_iff in Hin as [r [Hr Hin]].
  apply filter_In in Hin as [Hin _]. rewrite <- Hr. apply in_map, Hin.
Qed.

Lemma findById_In : forall ps q, NoDup (map pId ps) -> In q ps -> findById ps (pId q) = Some q.
Proof.
  induction ps as [|r ps IH]; intros q Hnd Hin; [destruct Hin|].
  inversion Hnd as [|? ? Hnin Hnd']; subst.
  unfold findById; simpl.
  destruct Hin as [<-|Hin]; [rewrite Nat.eqb_refl; reflexivity|].
  destruct (pId r =? pId q) eqn:E.
  - apply Nat.eqb_eq in E. exfalso. apply Hnin. rewrite E. apply in_map, Hin.
  - apply IH; assumption.
Qed.

(** One sweep, for a payment of the store. *)
Lemma sweep_effect : forall w now admins outcome p,
  NoDup (map pId (payments w)) ->
  (forall q, In q (payments w) -> overdue "pending_approval" (now - People.hourMs) q = true ->
             outcome (pId q) <> SvcThrow) ->
  In p (payments w) ->
  findById (payments (handlePendingPayments w now admins outcome)) (pId p) =
    Some (if overdue "pending_approval" (now - People.hourMs) p then settled outcome p else p).
Proof.
  intros w now admins outcome p Hnd Hnt Hin.
  rewrite handle_payments.
  set (todo := filter (overdue "pending_approval" (now - People.hourMs)) (payments w)).
  destruct (payPending_done outcome admins todo w) as [_ Hd].
  - apply NoDup_ids_filter, Hnd.
  - intros q Hq. apply filter_In in Hq as [Hq _]. apply findById_In; assumption.
  - intros q Hq. apply filter_In in Hq as [Hq Ho]. apply Hnt; assumption.
  - rewrite Hd. unfold todo. rewrite StoreFacts.findById_filter by exact Hnd.
    rewrite findById_In by assumption.
    destruct (overdue _ _ p); reflexivity.
Qed.

(** Whatever the payment service does, a payment that is not an overdue
    [pending_approval] one is left as it is by a sweep. *)
Lemma sweep_keeps_others : forall w now admins outcome p,
  NoDup (map pId (payments w)) -> In p (payments w) ->
  overdue "pending_approval" (now - People.hourMs) p = false ->
  findById (payments (handlePendingPayments w now admins outcome)) (pId p) = Some p.
Proof.
  intros w now admins outcome p Hnd Hin Hov.
  rewrite handle_payments, payPending_untouched; [apply findById_In; assumption|].
  intros Hid. apply in_map_iff in Hid as [q [Hq Hqin]].
  apply filter_In in Hqin as [Hqin Hqo].
  assert (q = p) as ->.
  { pose proof (findById_In _ _ Hnd Hqin) as A. pose proof (findById_In _ _ Hnd Hin) as B.
    rewrite Hq in A. congruence. }
  congruence.
Qed.

End SweepFacts.

Module SweepIds.
Import Model Jobs.

Lemma payPending_ids : forall outcome admins todo w,
  map pId (payments (fst (payPending outcome admins todo w))) = map pId (payments w).
Proof.
  intros outcome admins. induction todo as [|p rest IH]; intros w; cbn [payPending]; [reflexivity|].
  assert (S : forall p', map pId (savePayment (payments w) p') = map pId (payments w)).
  { intros p'. unfold savePayment. rewrite map_map. apply map_ext.
    intros r. destruct (pId r =? pId p') eqn:E; [apply Nat.eqb_eq in E; auto | reflexivity]. }
  destruct (outcome (pId p)); simpl; try reflexivity; rewrite IH; simpl; apply S.
Qed.

Lemma sweep_ids : forall w now admins outcome,
  map pId (payments (handlePendingPayments w now admins outcome)) = map pId (payments w).
Proof. intros. rewrite SweepFacts.handle_payments. apply payPending_ids. Qed.

Lemma runSweeps_keeps : forall runs admins w p,
  NoDup (map pId (payments w)) -> In p (payments w) -> pStatus p <> "pending_approval" ->
  findById (payments (runSweeps runs admins w)) (pId p) = Some p.
Proof.
  induction runs as [|[now outcome] rest IH]; intros admins w p Hnd Hin Hst; simpl.
  - apply SweepFacts.findById_In; assumption.
  - assert (K : findById (payments (handlePendingPayments w now admins outcome)) (pId p) = Some p).
    { apply SweepFacts.sweep_keeps_others; try assumption.
      unfold overdue. destruct (String.eqb (pStatus p) "pending_approval") eqn:E; [|reflexivity].
      apply String.eqb_eq in E. contradiction. }
    apply IH; [rewrite sweep_ids; exact Hnd| |exact Hst].
    unfold findById in K. apply find_some in K as [K _]. exact K.
Qed.

End SweepIds.

Module SweepEffects.
Import Model Jobs.

Lemma payPending_balance : forall outcome admins todo w,
  balance (fst (payPending outcome admins todo w)) = balance w.
Proof.
  intros outcome admins. induction todo as [|p rest IH]; intros w; cbn [payPending];
    [reflexivity|].
  destruct (outcome (pId p)); simpl; try reflexivity; rewrite IH; reflexivity.
Qed.

(** A sweep moves no balance, whatever the payment service answers. *)
Lemma sweep_balance : forall w now admins outcome,
  balance (handlePendingPayments w now admins outcome) = balance w.
Proof.
  intros. unfold handlePendingPayments.
  pose proof (payPending_balance outcome admins
                (filter (overdue "pending_approval" (now - People.hourMs)) (payments w)) w) as B.
  destruct (payPending _ _ _ _) as [w1 []]; simpl in B; [exact B|].
  destruct (filter _ (payments w1)); exact B.
Qed.

(** A throw on the first overdue [pending_approval] payment ends the run
    with nothing written and no notification sent. *)
Lemma sweep_throw_first : forall w now admins outcome p rest,
  filter (overdue "pending_approval" (now - People.hourMs)) (payments w) = p :: rest ->
  outcome (pId p) = SvcThrow ->
  handlePendingPayments w now admins outcome = w.
Proof.
  intros w now admins outcome p rest Hf Ho.
  unfold handlePendingPayments. rewrite Hf. cbn [payPending]. rewrite Ho. reflexivity.
Qed.

(** With no overdue [pending_approval] payment, the run only notifies the
    admins, and only when a [needs_review] payment is overdue. *)
Lemma sweep_review_only : forall w now admins outcome,
  filter (overdue "pending_approval" (now - People.hourMs)) (payments w) = [] ->
  handlePendingPayments w now admins outcome =
    mkWorld (payments w) (balance w)
      (log w ++ if existsb (overdue "needs_review" (now - People.hourMs)) (payments w)
                then map EvNotify admins else []).
Proof.
  intros w now admins outcome Hf.
  unfold handlePendingPayments. rewrite Hf. cbn [payPending].
  destruct (filter (overdue "needs_review" (now - People.hourMs)) (payments w)) as [|q qs] eqn:E.
  - assert (N : existsb (overdue "needs_review" (now - People.hourMs)) (payments w) = false).
    { apply Bool.not_true_is_false. intros Hx. apply existsb_exists in Hx as [x [Hx Hov]].
      assert (In x (filter (overdue "needs_review" (now - People.hourMs)) (payments w)))
        by (apply filter_In; split; assumption).
      rewrite E in H. destruct H. }
    rewrite N, app_nil_r. destruct w; reflexivity.
  - assert (Y : existsb (overdue "needs_review" (now - People.hourMs)) (payments w) = true).
    { apply existsb_exists. exists q.
      assert (Hq : In q (filter (overdue "needs_review" (now - People.hourMs)) (payments w)))
        by (rewrite E; left; reflexivity).
      apply filter_In in Hq. exact Hq. }
    rewrite Y. reflexivity.
Qed.

End SweepEffects.





Lemma nextMidnight_bounds : forall t,
  (t < Jobs.nextMidnight t)%Z /\ (Jobs.nextMidnight t <= t + People.dayMs)%Z /\
  (Jobs.nextMidnight t mod People.dayMs = 0)%Z.
Proof.
  intros t. unfold Jobs.nextMidnight.
  assert (Hd : (0 < People.dayMs)%Z) by (unfold People.dayMs; lia).
  pose proof (Z.div_mod t People.dayMs ltac:(lia)) as E.
  pose proof (Z.mod_pos_bound t People.dayMs Hd) as B.
  split; [|split]; [nia | nia | apply Z.mod_mul; lia].
Qed.




Module DayFacts.
Import People.

Lemma dayStart_bounds : forall now,
  (dayStart now <= now)%Z /\ (now < dayStart now + dayMs)%Z.
Proof.
  intros now. unfold dayStart.
  pose proof (Z.mod_pos_bound now dayMs ltac:(unfold dayMs; lia)). lia.
Qed.

Lemma filter_save_length : forall (f : Attendance -> bool) db a',
  (forall b, In b db -> aId b = aId a' -> f b = f a') ->
  length (filter f (EmployeeCtl.saveAttendance db a')) = length (filter f db).
Proof.
  intros f. induction db as [|b rest IH]; intros a' H; [reflexivity|].
  assert (Hr : length (filter f (EmployeeCtl.saveAttendance rest a')) = length (filter f rest))
    by (apply IH; intros; apply H; simpl; auto).
  unfold EmployeeCtl.saveAttendance in *. simpl.
  destruct (aId b =? aId a') eqn:E.
  - apply Nat.eqb_eq in E. rewrite (H b (or_introl eq_refl) E).
    destruct (f a'); simpl; rewrite Hr; reflexivity.
  - destruct (f b); simpl; rewrite Hr; reflexivity.
Qed.

Lemma NoDup_id_unique : forall db a b,
  NoDup (map aId db) -> In a db -> In b db -> aId a = aId b -> a = b.
Proof.
  induction db as [|c rest IH]; intros a b Hnd Ha Hb E; [destruct Ha|].
  simpl in Hnd. inversion Hnd as [|? ? Hnot Hnd']; subst.
  destruct Ha as [<-|Ha], Hb as [<-|Hb]; auto.
  - exfalso. apply Hnot. rewrite E. apply in_map, Hb.
  - exfalso. apply Hnot. rewrite <- E. apply in_map, Ha.
Qed.

(** Saving a record that keeps the id, worker and date of a stored one does
    not change how many records any worker has on any day. *)
Lemma save_same_key : forall db a a' emp' d,
  NoDup (map aId db) -> In a db -> aId a' = aId a ->
  aEmployee a' = aEmployee a -> aDate a' = aDate a ->
  length (Workday.recordsOfDay (EmployeeCtl.saveAttendance db a') emp' d)
  = length (Workday.recordsOfDay db emp' d).
Proof.
  intros db a a' emp' d Hnd Ha Hi He Hd. unfold Workday.recordsOfDay.
  apply filter_save_length. intros b Hb Eb.
  rewrite (NoDup_id_unique db b a Hnd Hb Ha ltac:(congruence)), He, Hd. reflexivity.
Qed.

Lemma filter_nil_find : forall (A : Type) (f : A -> bool) l,
  filter f l = [] -> find f l = None.
Proof.
  intros A f. induction l as [|x l IH]; simpl; [reflexivity|].
  destruct (f x); [discriminate | exact IH].
Qed.

Lemma find_filter_nil : forall (A : Type) (f : A -> bool) l,
  find f l = None -> filter f l = [].
Proof.
  intros A f. induction l as [|x l IH]; simpl; [reflexivity|].
  destruct (f x); [discriminate | exact IH].
Qed.

End DayFacts.




(* ------------------------------------------------------------------ *)
(** ** Pagination and listings *)
Module PagingFacts.
Import Paging.

Lemma ceilDiv_least : forall a b, (0 < b)%Z -> (0 <= a)%Z ->
  (0 <= ceilDiv a b)%Z /\ (a <= ceilDiv a b * b)%Z /\
  (forall n, (a <= n * b)%Z -> (ceilDiv a b <= n)%Z).
Proof.
  intros a b Hb Ha. unfold ceilDiv.
  pose proof (Z.div_mod (- a) b ltac:(lia)) as E.
  pose proof (Z.mod_pos_bound (- a) b Hb) as B.
  set (q := (- a / b)%Z) in *. set (r := (- a mod b)%Z) in *.
  split; [|split].
  - nia.
  - nia.
  - intros n Hn. destruct (Z.le_gt_cases (- q) n) as [H|H]; [exact H|].
    exfalso. assert (n * b <= (- q - 1) * b)%Z by (apply Z.mul_le_mono_nonneg_r; lia). nia.
Qed.

(** [getPagination] with a positive page size and a non-negative item
    count: [totalPages] is the least number of pages of [pageSize] items
    that holds all [totalItems] items (0 for no items); it does not depend
    on the current page. *)
Theorem total_pages_least : forall totalItems currentPage pageSize,
  (0 < pageSize)%Z -> (0 <= totalItems)%Z ->
  let tp := totalPages (getPagination totalItems currentPage pageSize) in
  (0 <= tp)%Z /\ (totalItems <= tp * pageSize)%Z /\
  (forall n, (totalItems <= n * pageSize)%Z -> (tp <= n)%Z) /\
  (totalItems = 0%Z -> tp = 0%Z) /\
  (forall c', totalPages (getPagination totalItems c' pageSize) = tp).
Proof.
  intros ti c ps Hps Hti tp. unfold tp; simpl.
  destruct (ceilDiv_least ti ps Hps Hti) as [A [B C]].
  split; [exact A | split; [exact B | split; [exact C | split]]].
  - intros ->. apply Z.le_antisymm; [apply C; lia | exact A].
  - reflexivity.
Qed.

Lemma total_pages_least_witness :
  (0 < 10)%Z /\ (0 <= 25)%Z /\ totalPages (getPagination 25 1 10) = 3%Z /\
  (forall n, (25 <= n * 10)%Z -> (3 <= n)%Z).
Proof.
  destruct (total_pages_least 25 1 10 ltac:(lia) ltac:(lia)) as [_ [_ [C _]]].
  split; [lia | split; [lia | split; [reflexivity | exact C]]].
Defined.

(** Following the links of [getPagination]: from a page [c >= 1] with a
    next page, that next page is [c + 1] and its previous page is [c]; from
    a page [c] up to [totalPages] with a previous page, that page is [c - 1]
    and its next page is [c].  The last page has no next page and page 1
    (or below) no previous page. *)
Theorem page_links_round_trip : forall totalItems pageSize c,
  let pg := getPagination totalItems c pageSize in
  ((1 <= c)%Z -> forall n, nextPage pg = Some n ->
     n = (c + 1)%Z /\ prevPage (getPagination totalItems n pageSize) = Some c) /\
  ((c <= totalPages pg)%Z -> forall m, prevPage pg = Some m ->
     m = (c - 1)%Z /\ nextPage (getPagination totalItems m pageSize) = Some c) /\
  ((totalPages pg <= c)%Z -> nextPage pg = None /\ hasNextPage pg = false) /\
  ((c <= 1)%Z -> prevPage pg = None /\ hasPrevPage pg = false).
Proof.
  intros ti ps c pg. unfold pg, getPagination; simpl.
  set (tp := ceilDiv ti ps).
  split; [|split; [|split]].
  - intros Hc n Hn.
    destruct (c <? tp)%Z eqn:E; [|discriminate]. injection Hn as <-.
    split; [reflexivity|].
    replace ((1 <? c + 1)%Z) with true by (symmetry; apply Z.ltb_lt; lia).
    f_equal. lia.
  - intros Hc m Hm.
    destruct (1 <? c)%Z eqn:E; [|discriminate]. injection Hm as <-.
    split; [reflexivity|].
    replace ((c - 1 <? tp)%Z) with true by (symmetry; apply Z.ltb_lt; lia).
    f_equal. lia.
  - intros Hc. replace ((c <? tp)%Z) with false by (symmetry; apply Z.ltb_ge; lia).
    split; reflexivity.
  - intros Hc. replace ((1 <? c)%Z) with false by (symmetry; apply Z.ltb_ge; lia).
    split; reflexivity.
Qed.

Lemma page_links_round_trip_witness :
  nextPage (getPagination 25 2 10) = Some 3%Z /\
  prevPage (getPagination 25 3 10) = Some 2%Z.
Proof.
  destruct (proj1 (page_links_round_trip 25 10 2) ltac:(lia) 3%Z eq_refl) as [_ H].
  split; [reflexivity | exact H].
Defined.

End PagingFacts.

Module ListingFacts.
Import Model Listing.

Lemma chunks_cover : forall (A : Type) (L n : nat) (l : list A),
  length l <= n * L ->
  concat (map (fun j => firstn L (skipn (j * L) l)) (seq 0 n)) = l.
Proof.
  intros A L n. induction n as [|n IH]; intros l Hl.
  - simpl in *. destruct l; [reflexivity | simpl in Hl; lia].
  - simpl. rewrite <- seq_shift, map_map.
    rewrite (map_ext (fun j => firstn L (skipn (S j * L) l))
                     (fun j => firstn L (skipn (j * L) (skipn L l)))).
    2: { intros j. rewrite skipn_skipn. f_equal. f_equal. lia. }
    rewrite IH; [apply firstn_skipn|].
    rewrite length_skipn. lia.
Qed.

(** Paging through [getCompanyPayments] / [getEmployeePayments] with a
    positive [limit]: every page [k >= 1] is answered with at most [limit]
    payments and the same [pages] count; pages [1 .. pages] together list
    every matching payment exactly once, in the order of the sort.  A
    missing or zero page is page 1, and a negative page makes the skip
    negative, which the server refuses. *)
Theorem pages_cover_matches : forall (matched : list Payment) limit,
  (1 <= limit)%Z ->
  let P := Paging.ceilDiv (Z.of_nat (length matched)) limit in
  (forall k, (1 <= k)%Z -> exists l, listPayments matched (Some k) (Some limit) = Some l /\
     pages l = P /\ (Z.of_nat (count l) <= limit)%Z) /\
  concat (map (fun k => match listPayments matched (Some (Z.of_nat k)) (Some limit) with
                        | Some l => data l
                        | None => []
                        end) (seq 1 (Z.to_nat P))) = matched /\
  listPayments matched (Some 0%Z) (Some limit) = listPayments matched None (Some limit) /\
  listPayments matched None (Some limit) = listPayments matched (Some 1%Z) (Some limit) /\
  (forall k, (k < 0)%Z -> listPayments matched (Some k) (Some limit) = None).
Proof.
  intros matched limit Hl P.
  assert (Lim : intParam (Some limit) 10 = limit).
  { unfold intParam. replace (limit =? 0)%Z with false by (symmetry; apply Z.eqb_neq; lia).
    reflexivity. }
  assert (Pg : forall k, k <> 0%Z -> intParam (Some k) 1 = k).
  { intros k Hk. unfold intParam. apply Z.eqb_neq in Hk. rewrite Hk. reflexivity. }
  split; [|split; [|split; [|split]]].
  - intros k Hk. unfold listPayments. rewrite Lim, (Pg k ltac:(lia)).
    replace (((k - 1) * limit <? 0)%Z) with false by (symmetry; apply Z.ltb_ge; nia).
    eexists. split; [reflexivity|]. simpl. split; [reflexivity|].
    rewrite length_firstn. lia.
  - set (L := Z.to_nat limit).
    destruct (PagingFacts.ceilDiv_least (Z.of_nat (length matched)) limit
                ltac:(lia) ltac:(lia)) as [P0 [P1 _]]. fold P in P0, P1.
    transitivity (concat (map (fun j => firstn L (skipn (j * L) matched)) (seq 0 (Z.to_nat P)))).
    2: { apply chunks_cover. nia. }
    rewrite <- seq_shift, map_map. f_equal. apply map_ext. intros j.
    unfold listPayments. rewrite Lim, (Pg (Z.of_nat (S j)) ltac:(lia)).
    replace (((Z.of_nat (S j) - 1) * limit <? 0)%Z) with false
      by (symmetry; apply Z.ltb_ge; apply Z.mul_nonneg_nonneg; lia).
    replace (Z.of_nat (S j) - 1)%Z with (Z.of_nat j) by lia.
    simpl. rewrite Z.abs_eq by lia. fold L. f_equal. f_equal.
    assert (Hlim : (0 <= limit)%Z) by lia.
    rewrite (Z2Nat.inj_mul (Z.of_nat j) limit (Nat2Z.is_nonneg j) Hlim), Nat2Z.id.
    reflexivity.
  - reflexivity.
  - reflexivity.
  - intros k Hk. unfold listPayments. rewrite Lim, (Pg k ltac:(lia)).
    replace (((k - 1) * limit <? 0)%Z) with true by (symmetry; apply Z.ltb_lt; nia).
    reflexivity.
Qed.

Lemma pages_cover_matches_witness :
  let ps := [Sample.pay1 "pending"; Sample.pay2 "pending_approval"; Sample.pay1 "approved"] in
  concat (map (fun k => match listPayments ps (Some (Z.of_nat k)) (Some 2%Z) with
                        | Some l => data l
                        | None => []
                        end) (seq 1 (Z.to_nat (Paging.ceilDiv 3 2)))) = ps.
Proof.
  intros ps. exact (proj1 (proj2 (pages_cover_matches ps 2 ltac:(lia)))).
Defined.

End ListingFacts.

(** ** Working hours *)
Module HoursFacts.
Import Hours.

Definition inside (i o : Z) (b : Z * Z) : bool := (i <? fst b)%Z && (snd b <? o)%Z.

Lemma fold_breaks : forall i o bs t,
  fold_left (fun tm (b : Z * Z) =>
               if (i <? fst b)%Z && (snd b <? o)%Z
               then (tm - minuteDiff (snd b) (fst b))%Z else tm) bs t
  = (t - fold_right Z.add 0%Z (map (fun b => minuteDiff (snd b) (fst b))
                                 (filter (inside i o) bs)))%Z.
Proof.
  intros i o. induction bs as [|b bs IH]; intros t; simpl; [lia|].
  rewrite IH. unfold inside at 2.
  destruct ((i <? fst b)%Z && (snd b <? o)%Z); simpl; lia.
Qed.

(** [calculateWorkingHours]: 0 when a clock time is missing; otherwise the
    whole minutes between the clock times, less the whole minutes of each
    break that starts strictly after clock-in and ends strictly before
    clock-out (each truncated on its own, a break listed twice counted
    twice), over 60 and rounded to two decimals.  Breaks not strictly
    inside the shift do not change the result. *)
Theorem working_hours_closed_form : forall i o bs,
  calculateWorkingHours (Some i) (Some o) bs =
    Helpers.toFixed2
      (inject_Z (minuteDiff o i
                 - fold_right Z.add 0%Z (map (fun b => minuteDiff (snd b) (fst b))
                                          (filter (inside i o) bs))) / 60)%Q /\
  calculateWorkingHours (Some i) (Some o) (filter (inside i o) bs)
    = calculateWorkingHours (Some i) (Some o) bs /\
  (forall x, calculateWorkingHours None x bs = 0%Q /\
             calculateWorkingHours x None bs = 0%Q).
Proof.
  intros i o bs. split; [|split].
  - unfold calculateWorkingHours. rewrite fold_breaks. reflexivity.
  - unfold calculateWorkingHours. rewrite !fold_breaks.
    assert (FF : forall l, filter (inside i o) (filter (inside i o) l) = filter (inside i o) l).
    { induction l as [|b l IH]; simpl; [reflexivity|].
      destruct (inside i o b) eqn:E; simpl; [rewrite E|]; rewrite IH; reflexivity. }
    rewrite FF. reflexivity.
  - intros [x|]; split; reflexivity.
Qed.

End HoursFacts.

(** ** CSV parsing *)
Module CsvFacts.
Import Csv.

Lemma splitOn_length : forall c s, length (splitOn c s) = S (countChar c s).
Proof.
  intros c. induction s as [|x rest IH]; simpl; [reflexivity|].
  destruct (Ascii.eqb x c); simpl.
  - rewrite IH. reflexivity.
  - destruct (splitOn c rest) as [|p ps]; simpl in *; [discriminate | exact IH].
Qed.

(** [parseCSV] returns one row per line after the header line: as many
    rows as there are line feeds in the input (none for the empty string, an
    extra row for a trailing line feed). *)
Theorem csv_row_count : forall csvData,
  length (parseCSV csvData) = countChar newline csvData.
Proof.
  intros s. unfold parseCSV. rewrite length_map.
  pose proof (splitOn_length newline s) as H.
  destruct (splitOn newline s); simpl in *; [discriminate | lia].
Qed.

Lemma ownLookup_assignKey : forall row k v h,
  ownLookup (assignKey k v row) h = if String.eqb k h then Some v else ownLookup row h.
Proof.
  induction row as [|[k0 v0] rest IH]; intros k v h; simpl.
  - reflexivity.
  - destruct (String.eqb k0 k) eqn:E; simpl.
    + apply String.eqb_eq in E; subst k0. destruct (String.eqb k h); reflexivity.
    + destruct (String.eqb k0 h) eqn:F.
      * apply String.eqb_eq in F; subst k0.
        rewrite String.eqb_sym, E. reflexivity.
      * rewrite IH. reflexivity.
Qed.

Lemma ownLookup_fillRow : forall vs hs i row h,
  h <> "__proto__" ->
  ownLookup (fillRow vs hs i row) h =
    match lastIndexOf h hs with
    | Some k => Some (nth_error vs (i + k))
    | None => ownLookup row h
    end.
Proof.
  intros vs. induction hs as [|x xs IH]; intros i row h Hh; simpl; [reflexivity|].
  rewrite IH by exact Hh.
  destruct (lastIndexOf h xs) as [k|].
  - f_equal. f_equal. lia.
  - unfold objSet. destruct (String.eqb x "__proto__") eqn:P.
    + apply String.eqb_eq in P; subst x.
      destruct (String.eqb "__proto__" h) eqn:Q; [apply String.eqb_eq in Q; congruence|].
      reflexivity.
    + rewrite ownLookup_assignKey. destruct (String.eqb x h); [|reflexivity].
      rewrite Nat.add_0_r. reflexivity.
Qed.

Lemma ownLookup_fillRow_proto : forall vs hs i row,
  ownLookup (fillRow vs hs i row) "__proto__" = ownLookup row "__proto__".
Proof.
  intros vs. induction hs as [|x xs IH]; intros i row; simpl; [reflexivity|].
  rewrite IH. unfold objSet. destruct (String.eqb x "__proto__") eqn:P; [reflexivity|].
  rewrite ownLookup_assignKey, P. reflexivity.
Qed.

(** Row [i] of [parseCSV] is built from line [i + 1]: a header [h] maps to
    the trimmed field of that line in the LAST column headed [h] (a
    duplicated header keeps its last column, even when that field is
    missing and the value is [undefined]); a header absent from the header
    line is no own property, and nor is ["__proto__"]. *)
Theorem csv_row_fields : forall csvData i line row,
  nth_error (tl (splitOn newline csvData)) i = Some line ->
  nth_error (parseCSV csvData) i = Some row ->
  let headers := map trim (splitOn comma (hd EmptyString (splitOn newline csvData))) in
  let values := map trim (splitOn comma line) in
  (forall h, h <> "__proto__" ->
     ownLookup row h = option_map (fun k => nth_error values k) (lastIndexOf h headers)) /\
  ownLookup row "__proto__" = None.
Proof.
  intros s i line row Hl Hr headers values.
  unfold parseCSV in Hr. rewrite nth_error_map, Hl in Hr. simpl in Hr.
  injection Hr as <-. split.
  - intros h Hh. rewrite ownLookup_fillRow by exact Hh. fold headers values.
    destruct (lastIndexOf h headers); reflexivity.
  - rewrite ownLookup_fillRow_proto. reflexivity.
Qed.

Lemma csv_row_fields_witness :
  let s := String.append "a,b,a" (String newline "1,2,3") in
  ownLookup (hd [] (parseCSV s)) "a" = Some (Some "3").
Proof.
  intros s.
  destruct (csv_row_fields s 0 "1,2,3" (hd [] (parseCSV s)) eq_refl eq_refl) as [H _].
  rewrite (H "a" ltac:(discriminate)). reflexivity.
Defined.

End CsvFacts.

(** ** Admin review of flagged payments *)
Module FinalizeFacts.
Import Model Finalize.

Lemma find_after_finalize : forall ps id p st a b c,
  findById ps id = Some p ->
  findById (savePayment ps (finalizedFields p st a b c)) id = Some (finalizedFields p st a b c).
Proof.
  intros ps id p st a b c F.
  pose proof (StoreFacts.findById_id _ _ _ F) as E. subst id.
  exact (StoreFacts.findById_save_same ps (finalizedFields p st a b c) p F).
Qed.

Lemma finalize_ok_clears_flag : forall w isAdmin uid now id act r msg w1,
  finalizePayment w isAdmin uid now (Some id) act r = ((200%Z, msg), w1) ->
  exists p', findById (payments w1) id = Some p' /\ pRequiresAdminReview p' = false.
Proof.
  intros w isAdmin uid now id act r msg w1 H. unfold finalizePayment in H.
  destruct isAdmin; simpl in H; [|discriminate].
  destruct act as [act|]; [|discriminate].
  destruct (negb (String.eqb act "approve" || String.eqb act "reject")); [discriminate|].
  destruct (findById (payments w) id) as [p|] eqn:F; [|discriminate].
  destruct (pRequiresAdminReview p); simpl in H; [|discriminate].
  destruct (String.eqb act "approve").
  - destruct (negb (Qle_bool (pAmount p) (balance w (pCompany p)))); [discriminate|].
    destruct r as [ref|m]; injection H as _ <-; simpl;
      (eexists; split; [apply find_after_finalize; exact F | reflexivity]).
  - injection H as _ <-; simpl.
    eexists; split; [apply find_after_finalize; exact F | reflexivity].
Qed.

Lemma finalize_unflagged_noop : forall w id p' isAdmin uid now act r,
  findById (payments w) id = Some p' -> pRequiresAdminReview p' = false ->
  snd (finalizePayment w isAdmin uid now (Some id) act r) = w /\
  fst (fst (finalizePayment w isAdmin uid now (Some id) act r)) <> 200%Z.
Proof.
  intros w id p' isAdmin uid now act r F R. unfold finalizePayment.
  destruct isAdmin; simpl; [|split; [reflexivity | discriminate]].
  destruct act as [act|]; [|split; [reflexivity | discriminate]].
  destruct (negb (String.eqb act "approve" || String.eqb act "reject")); simpl;
    [split; [reflexivity | discriminate]|].
  rewrite F, R. simpl. split; [reflexivity | discriminate].
Qed.

(** [finalizePayment] acts at most once on a payment: once a call has
    answered 200 for a payment id, the payment is stored with
    [requiresAdminReview] cleared, so every later call for that id, whoever
    makes it and whatever the action or transfer outcome, answers an error
    and changes nothing (no second transfer, debit or status change). *)
Theorem finalize_at_most_once : forall w isAdmin uid now id act r msg w1,
  finalizePayment w isAdmin uid now (Some id) act r = ((200%Z, msg), w1) ->
  forall isAdmin' uid' now' act' r',
    snd (finalizePayment w1 isAdmin' uid' now' (Some id) act' r') = w1 /\
    fst (fst (finalizePayment w1 isAdmin' uid' now' (Some id) act' r')) <> 200%Z.
Proof.
  intros w isAdmin uid now id act r msg w1 H isAdmin' uid' now' act' r'.
  destruct (finalize_ok_clears_flag _ _ _ _ _ _ _ _ _ H) as [p' [F R]].
  exact (finalize_unflagged_noop w1 id p' isAdmin' uid' now' act' r' F R).
Qed.

Lemma finalize_at_most_once_witness :
  let p := mkPayment 1 10 20 30 50 0 0 "needs_review" 50 None None None None None
             true None None in
  let w := mkWorld [p] (fun _ => 1000%Q) [] in
  snd (finalizePayment (snd (finalizePayment w true 7 5 (Some 1) (Some "reject") (PayOk "R")))
         true 7 6 (Some 1) (Some "approve") (PayOk "R"))
  = snd (finalizePayment w true 7 5 (Some 1) (Some "reject") (PayOk "R")).
Proof.
  intros p w.
  exact (proj1 (finalize_at_most_once w true 7 5 1 (Some "reject") (PayOk "R") _ _ eq_refl
                  true 7 6 (Some "approve") (PayOk "R"))).
Defined.

(** Company balances move only on a successful approval: after any call of
    [finalizePayment] the balances are unchanged, unless an admin approved a
    flagged payment that the company balance covers and the transfer
    returned a reference; then exactly that company is debited the payment
    amount and the payment is stored approved by the caller, at the call
    time, with the reference and the flag cleared. *)
Theorem finalize_balance_cases : forall w isAdmin uid now pid act r,
  let w' := snd (finalizePayment w isAdmin uid now pid act r) in
  balance w' = balance w \/
  exists id p ref,
    isAdmin = true /\ pid = Some id /\ act = Some "approve" /\ r = PayOk ref /\
    findById (payments w) id = Some p /\ pRequiresAdminReview p = true /\
    (pAmount p <= balance w (pCompany p))%Q /\
    balance w' = debit (balance w) (pCompany p) (pAmount p) /\
    findById (payments w') id =
      Some (finalizedFields p "approved" (Some uid) (Some now) (Some ref)).
Proof.
  intros w isAdmin uid now pid act r w'. unfold w', finalizePayment.
  destruct isAdmin; simpl; [|left; reflexivity].
  destruct pid as [id|]; [|left; reflexivity].
  destruct act as [act|]; [|left; reflexivity].
  destruct (negb (String.eqb act "approve" || String.eqb act "reject")); simpl;
    [left; reflexivity|].
  destruct (findById (payments w) id) as [p|] eqn:F; simpl; [|left; reflexivity].
  destruct (pRequiresAdminReview p) eqn:R; simpl; [|left; reflexivity].
  destruct (String.eqb act "approve") eqn:A; simpl; [|left; reflexivity].
  destruct (Qle_bool (pAmount p) (balance w (pCompany p))) eqn:B; simpl;
    [|left; reflexivity].
  destruct r as [ref|m]; simpl; [|left; reflexivity].
  right. exists id, p, ref.
  apply String.eqb_eq in A. subst act.
  split; [reflexivity | split; [reflexivity | split; [reflexivity | split; [reflexivity|]]]].
  split; [exact F | split; [exact R | split; [apply Qle_bool_iff; exact B|]]].
  split; [reflexivity | apply find_after_finalize; exact F].
Qed.

(** An approval whose transfer throws still answers 200 "Payment approved
    successfully": the payment is stored with status ["failed"] and the
    flag cleared (so it cannot be reviewed again), the balance is not
    debited and the only effect logged is that save. *)
Theorem finalize_failed_transfer_reported_approved : forall w uid now id p msg,
  findById (payments w) id = Some p -> pRequiresAdminReview p = true ->
  (pAmount p <= balance w (pCompany p))%Q ->
  let res := finalizePayment w true uid now (Some id) (Some "approve") (PayError msg) in
  fst res = (200%Z, "Payment approved successfully") /\
  findById (payments (snd res)) id =
    Some (finalizedFields p "failed" (pApprovedBy p) (pApprovedAt p) (pReference p)) /\
  pStatus (finalizedFields p "failed" (pApprovedBy p) (pApprovedAt p) (pReference p)) = "failed" /\
  balance (snd res) = balance w /\
  log (snd res) = log w ++ [EvSave id "failed"].
Proof.
  intros w uid now id p msg F R B res. unfold res, finalizePayment. simpl.
  rewrite F, R. simpl.
  apply Qle_bool_iff in B. rewrite B. simpl.
  split; [reflexivity | split; [apply find_after_finalize; exact F|]].
  split; [reflexivity | split; reflexivity].
Qed.

Lemma finalize_failed_transfer_reported_approved_witness :
  let p := mkPayment 1 10 20 30 50 0 0 "needs_review" 50 None None None None None
             true None None in
  let w := mkWorld [p] (fun _ => 1000%Q) [] in
  fst (finalizePayment w true 7 5 (Some 1) (Some "approve") (PayError "timeout"))
    = (200%Z, "Payment approved successfully") /\
  balance (snd (finalizePayment w true 7 5 (Some 1) (Some "approve") (PayError "timeout")))
    = balance w.
Proof.
  intros p w.
  destruct (finalize_failed_transfer_reported_approved w 7 5 1 p "timeout" eq_refl eq_refl
              ltac:(unfold Qle; simpl; lia)) as [A [_ [_ [B _]]]].
  split; [exact A | exact B].
Defined.

End FinalizeFacts.

(** ** Monthly salary *)
Module SalaryFacts.
Import Model People Salary.

Lemma findEmployee_id : forall users id e, findEmployee users id = Some e -> eId e = id.
Proof.
  intros users id e H. unfold findEmployee in H.
  apply find_some in H as [_ H]. apply Nat.eqb_eq in H. exact H.
Qed.

Lemma findEmployee_save_same : forall users e' e,
  findEmployee users (eId e') = Some e -> findEmployee (saveEmployee users e') (eId e') = Some e'.
Proof.
  intros users e' e. unfold findEmployee, saveEmployee.
  induction users as [|u us IH]; simpl; [discriminate|].
  destruct (eId u =? eId e') eqn:E; simpl.
  - intros _. rewrite Nat.eqb_refl. reflexivity.
  - rewrite E. exact IH.
Qed.

(** A successful [setMonthlySalary] with salary [s] stores [s] as the
    employee's wages and [s / workingDaysPerMonth] as the daily rate, so the
    admin payment run then pays that rate ([s] over four times the number
    of working-day names, or over 20 when there are none); the scheduled
    18:00 payment job reads [salary] and [workingDays], which the endpoint
    does not touch, and pays exactly what it paid before. *)
Theorem salary_sets_admin_rate_only : forall users company id s msg users',
  setMonthlySalary users company (Some id) (Some s) = ((200%Z, msg), users') ->
  exists e e', findEmployee users id = Some e /\ findEmployee users' id = Some e' /\
    eCompany e = company /\ (0 < s)%Q /\ eWages e' = s /\
    (forall now w, Controllers.paidToday (payments w) id now = false ->
       exists p, payments (Controllers.adminPayOne now w e') = payments w ++ [p] /\
         pAmount p = (s / inject_Z (Z.of_nat
                        (if length (eWorkingDayNames e) * 4 =? 0 then 20
                         else length (eWorkingDayNames e) * 4)))%Q) /\
    (forall now dow db w, Jobs.cronPayOne now dow db w e' = Jobs.cronPayOne now dow db w e).
Proof.
  intros users company id s msg users' H. unfold setMonthlySalary in H.
  destruct (Qle_bool s 0) eqn:S; [discriminate|].
  destruct (findEmployee users id) as [e|] eqn:F; [|discriminate].
  destruct (negb (eCompany e =? company)) eqn:C; [discriminate|].
  injection H as _ <-.
  pose proof (findEmployee_id _ _ _ F) as Hid. subst id.
  assert (Spos : (0 < s)%Q).
  { apply Qnot_le_lt. intros Hle. apply Qle_bool_iff in Hle. congruence. }
  set (wd := if length (eWorkingDayNames e) * 4 =? 0 then 20
             else length (eWorkingDayNames e) * 4).
  set (e' := mkEmployee (eId e) (eCompany e) (eEmployer e)
               (Some (s / inject_Z (Z.of_nat wd))%Q) s (eWorkingDayNames e) (eSalary e)
               (eWorkingDays e) (eHasRemittance e)).
  exists e, e'.
  split; [reflexivity|]. split; [exact (findEmployee_save_same users e' e F)|].
  split; [apply Nat.eqb_eq; destruct (eCompany e =? company); [reflexivity | discriminate]|].
  split; [exact Spos|]. split; [reflexivity|]. split.
  - intros now w Hp. unfold Controllers.adminPayOne. simpl. rewrite Hp.
    assert (Wpos : (0 < inject_Z (Z.of_nat wd))%Q).
    { unfold wd. destruct (length (eWorkingDayNames e) * 4 =? 0) eqn:Z0.
      - unfold Qlt; simpl; lia.
      - apply Nat.eqb_neq in Z0. unfold Qlt; simpl; lia. }
    assert (Rpos : (0 < s / inject_Z (Z.of_nat wd))%Q).
    { apply Qlt_shift_div_l; [exact Wpos|]. rewrite Qmult_0_l. exact Spos. }
    destruct (Qeq_bool (s / inject_Z (Z.of_nat wd)) 0) eqn:Z0.
    + apply Qeq_bool_iff in Z0. rewrite Z0 in Rpos. exfalso. exact (Qlt_irrefl 0 Rpos).
    + destruct (negb (Qle_bool (s / inject_Z (Z.of_nat wd)) (balance w (eCompany e))));
        simpl; eexists; split; reflexivity.
  - intros now dow db w. reflexivity.
Qed.

Lemma salary_sets_admin_rate_only_witness :
  exists e', findEmployee (snd (setMonthlySalary [Sample.employee10] 30 (Some 10) (Some 40000%Q))) 10
               = Some e' /\ eWages e' = 40000%Q.
Proof.
  destruct (salary_sets_admin_rate_only [Sample.employee10] 30 10 40000%Q _ _ eq_refl)
    as [e [e' [_ [F2 [_ [_ [W _]]]]]]].
  exists e'. split; [exact F2 | exact W].
Defined.

End SalaryFacts.

(** ** Project statuses and the employee project endpoints *)
Module ProjectFacts.
Import People Projects.

Local Abbreviation inScope p :=
  (String.eqb (prStatus p) "planning" || String.eqb (prStatus p) "inProgress").
Local Abbreviation step today q :=
  (match statusUpdate today q with Some st => withStatus q st | None => q end).
Local Abbreviation G today :=
  (fun x p => match statusUpdate today p with
              | Some st => if prId x =? prId p then withStatus p st else x
              | None => x
              end).

Lemma in_firstn : forall (A : Type) k (l : list A) x, In x (firstn k l) -> In x l.
Proof.
  intros A k l x H. rewrite <- (firstn_skipn k l). apply in_or_app. left. exact H.
Qed.

Lemma nodup_map_firstn : forall (A B : Type) (f : A -> B) k l,
  NoDup (map f l) -> NoDup (map f (firstn k l)).
Proof.
  intros A B f k l. revert k. induction l as [|x l IH]; intros k H; destruct k; simpl;
    [constructor | constructor | constructor |].
  inversion H as [|? ? Hn Hd]; subst. constructor; [|apply IH; exact Hd].
  intros Hin. apply Hn. rewrite in_map_iff in Hin |- *.
  destruct Hin as [y [E Hy]]. exists y. split; [exact E | apply (in_firstn _ k); exact Hy].
Qed.

Lemma nodup_map_filter : forall (A B : Type) (f : A -> B) g l,
  NoDup (map f l) -> NoDup (map f (filter g l)).
Proof.
  intros A B f g. induction l as [|x l IH]; intros H; simpl; [constructor|].
  inversion H as [|? ? Hn Hd]; subst. destruct (g x); simpl; [|apply IH; exact Hd].
  constructor; [|apply IH; exact Hd].
  intros Hin. apply Hn. rewrite in_map_iff in Hin |- *.
  destruct Hin as [y [E Hy]]. exists y. split; [exact E | apply filter_In in Hy; apply Hy].
Qed.

Lemma nodup_inj : forall ps p q, NoDup (map prId ps) -> In p ps -> In q ps ->
  prId p = prId q -> p = q.
Proof.
  induction ps as [|r ps IH]; intros p q H Hp Hq E; [destruct Hp|].
  inversion H as [|? ? Hn Hd]; subst.
  destruct Hp as [<-|Hp], Hq as [<-|Hq]; [reflexivity| | |apply IH; assumption].
  - exfalso. apply Hn. rewrite E. apply in_map. exact Hq.
  - exfalso. apply Hn. rewrite <- E. apply in_map. exact Hp.
Qed.

Lemma find_map_nodup : forall (h : Project -> Project) ps q,
  (forall x, prId (h x) = prId x) -> NoDup (map prId ps) -> In q ps ->
  findProject (map h ps) (prId q) = Some (h q).
Proof.
  intros h ps q Hh. unfold findProject. induction ps as [|r ps IH]; intros H Hq; [destruct Hq|].
  inversion H as [|? ? Hn Hd]; subst. simpl. rewrite Hh.
  destruct (prId r =? prId q) eqn:E.
  - apply Nat.eqb_eq in E. destruct Hq as [<-|Hq]; [reflexivity|].
    exfalso. apply Hn. rewrite E. apply in_map. exact Hq.
  - destruct Hq as [<-|Hq]; [rewrite Nat.eqb_refl in E; discriminate|]. apply IH; assumption.
Qed.

Lemma notifyAll_ok : forall sendOk rs log, (forall u, sendOk u = true) ->
  snd (notifyAll sendOk rs log) = false.
Proof.
  intros sendOk rs. induction rs as [|u rs IH]; intros log Hok; simpl; [reflexivity|].
  rewrite Hok. apply IH. exact Hok.
Qed.

Lemma loop_prefix : forall today users sendOk todo ps log,
  exists k,
    fst (projectLoop today users sendOk todo ps log) =
      fold_left (fun acc p => match statusUpdate today p with
                              | Some st => saveProject acc (withStatus p st)
                              | None => acc
                              end) (firstn k todo) ps /\
    ((forall u, sendOk u = true) -> k = length todo).
Proof.
  intros today users sendOk. induction todo as [|p rest IH]; intros ps log.
  - exists 0. split; reflexivity.
  - simpl. destruct (statusUpdate today p) as [st|] eqn:U.
    + destruct (notifyAll sendOk (filter (fun u => existsb (Nat.eqb u) (prAssignedEmployees p))
                                    users) log) as [log' b] eqn:N.
      destruct b.
      * exists 1. simpl. rewrite U. split; [reflexivity|].
        intros Hok. pose proof (notifyAll_ok sendOk
          (filter (fun u => existsb (Nat.eqb u) (prAssignedEmployees p)) users) log Hok) as B.
        rewrite N in B. discriminate.
      * destruct (IH (saveProject ps (withStatus p st)) log') as [k [E L]].
        exists (S k). simpl. rewrite U. split; [exact E|].
        intros Hok. rewrite (L Hok). reflexivity.
    + destruct (IH ps log) as [k [E L]]. exists (S k). simpl. rewrite U.
      split; [exact E|]. intros Hok. rewrite (L Hok). reflexivity.
Qed.

Lemma fold_as_map : forall today l ps,
  fold_left (fun acc p => match statusUpdate today p with
                          | Some st => saveProject acc (withStatus p st)
                          | None => acc
                          end) l ps =
  map (fun q => fold_left (G today) l q) ps.
Proof.
  intros today. induction l as [|p l IH]; intros ps; simpl.
  - symmetry. apply map_id.
  - rewrite IH. rewrite <- (map_map (fun q => G today q p) (fun q => fold_left (G today) l q)).
    f_equal. destruct (statusUpdate today p) as [st|]; [reflexivity|].
    symmetry. apply map_id.
Qed.

Lemma foldG_none : forall today l y, (forall p, In p l -> prId p <> prId y) ->
  fold_left (G today) l y = y.
Proof.
  intros today. induction l as [|p l IH]; intros y H; simpl; [reflexivity|].
  assert (E : (prId y =? prId p) = false).
  { apply Nat.eqb_neq. intros E. apply (H p (or_introl eq_refl)). symmetry. exact E. }
  destruct (statusUpdate today p); [rewrite E|]; apply IH; intros r Hr; apply H; right; exact Hr.
Qed.

Lemma foldG_char : forall today l y, NoDup (map prId l) ->
  (forall p, In p l -> prId p = prId y -> p = y) ->
  fold_left (G today) l y =
    if existsb (fun p => prId p =? prId y) l then step today y else y.
Proof.
  intros today. induction l as [|p0 l IH]; intros y Hd Hu; simpl; [reflexivity|].
  inversion Hd as [|? ? Hn Hd']; subst.
  destruct (prId p0 =? prId y) eqn:E; simpl.
  - apply Nat.eqb_eq in E. pose proof (Hu p0 (or_introl eq_refl) E) as ->.
    rewrite Nat.eqb_refl.
    assert (Hl : forall p, In p l -> prId p <> prId y).
    { intros p Hp Hpy. apply Hn. rewrite <- Hpy. apply in_map. exact Hp. }
    destruct (statusUpdate today y) as [st|];
      apply foldG_none; intros p Hp; apply Hl; exact Hp.
  - assert (E' : (prId y =? prId p0) = false) by (rewrite Nat.eqb_sym; exact E).
    destruct (statusUpdate today p0); [rewrite E'|];
      (apply IH; [exact Hd' | intros p Hp; apply Hu; right; exact Hp]).
Qed.

Lemma run_char : forall today users sendOk ps log, NoDup (map prId ps) ->
  exists k,
    fst (updateProjectStatuses today users sendOk ps log) =
      map (fun q => if existsb (fun p => prId p =? prId q) (firstn k (filter (fun p => inScope p) ps))
                    then step today q else q) ps /\
    ((forall u, sendOk u = true) -> firstn k (filter (fun p => inScope p) ps) = filter (fun p => inScope p) ps).
Proof.
  intros today users sendOk ps log Hd.
  destruct (loop_prefix today users sendOk (filter (fun p => inScope p) ps) ps log) as [k [E L]].
  exists k. split.
  - unfold updateProjectStatuses. rewrite E, fold_as_map. apply map_ext_in. intros q Hq.
    apply foldG_char.
    + apply nodup_map_firstn, nodup_map_filter. exact Hd.
    + intros p Hp Hpq. apply (nodup_inj ps); [exact Hd | | exact Hq | exact Hpq].
      apply in_firstn in Hp. apply filter_In in Hp. apply Hp.
  - intros Hok. rewrite (L Hok). apply firstn_all.
Qed.

Lemma step_id : forall today q, prId (step today q) = prId q.
Proof. intros today q. destruct (statusUpdate today q); reflexivity. Qed.

Lemma run_ids : forall today users sendOk ps log, NoDup (map prId ps) ->
  map prId (fst (updateProjectStatuses today users sendOk ps log)) = map prId ps.
Proof.
  intros today users sendOk ps log Hd. destruct (run_char today users sendOk ps log Hd) as [k [E _]].
  rewrite E, map_map. apply map_ext. intros q.
  destruct (existsb _ _); [apply step_id | reflexivity].
Qed.

Lemma out_of_scope_not_done : forall ps k q, NoDup (map prId ps) -> In q ps ->
  inScope q = false ->
  existsb (fun p => prId p =? prId q) (firstn k (filter (fun p => inScope p) ps)) = false.
Proof.
  intros ps k q Hd Hq Hs. apply Bool.not_true_is_false. intros Hx.
  apply existsb_exists in Hx as [p [Hp Ep]]. apply Nat.eqb_eq in Ep.
  apply in_firstn in Hp. apply filter_In in Hp as [Hp Ps].
  rewrite (nodup_inj ps p q Hd Hp Hq Ep) in Ps. rewrite Hs in Ps. discriminate.
Qed.

Lemma run_out_of_scope : forall today users sendOk ps log q, NoDup (map prId ps) -> In q ps ->
  inScope q = false ->
  findProject (fst (updateProjectStatuses today users sendOk ps log)) (prId q) = Some q.
Proof.
  intros today users sendOk ps log q Hd Hq Hs.
  destruct (run_char today users sendOk ps log Hd) as [k [E _]]. rewrite E.
  rewrite (find_map_nodup _ ps q); [| |exact Hd|exact Hq].
  - rewrite (out_of_scope_not_done ps k q Hd Hq Hs). reflexivity.
  - intros x. destruct (existsb _ _); [apply step_id | reflexivity].
Qed.

Lemma run_all_ok : forall today users sendOk ps log, NoDup (map prId ps) ->
  (forall u, sendOk u = true) ->
  fst (updateProjectStatuses today users sendOk ps log) =
    map (fun q => if inScope q then step today q else q) ps.
Proof.
  intros today users sendOk ps log Hd Hok.
  destruct (run_char today users sendOk ps log Hd) as [k [E L]]. rewrite E, (L Hok).
  apply map_ext_in. intros q Hq.
  destruct (inScope q) eqn:S.
  - replace (existsb (fun p => prId p =? prId q) (filter (fun p => inScope p) ps)) with true;
      [reflexivity|].
    symmetry. apply existsb_exists. exists q. split; [apply filter_In; split; assumption|].
    apply Nat.eqb_refl.
  - rewrite <- (firstn_all (filter (fun p => inScope p) ps)).
    rewrite (out_of_scope_not_done ps _ q Hd Hq S). reflexivity.
Qed.

Lemma stable_after_step : forall today q,
  inScope (if inScope q then step today q else q) = true ->
  statusUpdate today (if inScope q then step today q else q) = None.
Proof.
  intros today q. destruct (inScope q) eqn:S; [|intros H; rewrite S in H; discriminate].
  destruct (statusUpdate today q) as [st|] eqn:U; [|intros _; exact U].
  unfold statusUpdate in U. revert U. destruct (pastDue today q) eqn:P; intros U.
  - destruct (forallb (String.eqb "completed") (prTasks q));
      injection U as <-; intros H; simpl in H; discriminate.
  - revert U. destruct (startsBy today q); intros U; [|discriminate].
    injection U as <-. intros _.
    unfold statusUpdate.
    change (pastDue today (withStatus q "inProgress")) with (pastDue today q). rewrite P.
    reflexivity.
Qed.

Lemma loop_none : forall today users sendOk todo ps log,
  (forall p, In p todo -> statusUpdate today p = None) ->
  projectLoop today users sendOk todo ps log = (ps, log).
Proof.
  intros today users sendOk. induction todo as [|p rest IH]; intros ps log H; simpl;
    [reflexivity|].
  rewrite (H p (or_introl eq_refl)). apply IH. intros r Hr. apply H. right. exact Hr.
Qed.

Lemma runs_keep : forall runs users ps log c, NoDup (map prId ps) ->
  findProject ps (prId c) = Some c -> inScope c = false ->
  findProject (fst (runProjectJobs runs users ps log)) (prId c) = Some c.
Proof.
  induction runs as [|[today sendOk] runs IH]; intros users ps log c Hd F Hs; simpl; [exact F|].
  assert (Hc : In c ps) by (unfold findProject in F; apply find_some in F; apply F).
  apply IH; [rewrite run_ids; exact Hd | apply run_out_of_scope; assumption | exact Hs].
Qed.

Lemma save_ids : forall ps c, map prId (saveProject ps c) = map prId ps.
Proof.
  intros ps c. unfold saveProject. rewrite map_map. apply map_ext. intros q.
  destruct (prId q =? prId c) eqn:E; [apply Nat.eqb_eq in E; symmetry; exact E | reflexivity].
Qed.

Lemma save_find : forall ps c p, findProject ps (prId c) = Some p ->
  findProject (saveProject ps c) (prId c) = Some c.
Proof.
  intros ps c p. unfold findProject, saveProject.
  induction ps as [|r ps IH]; simpl; [discriminate|].
  destruct (prId r =? prId c) eqn:E; simpl.
  - intros _. rewrite Nat.eqb_refl. reflexivity.
  - rewrite E. exact IH.
Qed.

Lemma reportOf_filter : forall reports id k, k <> id ->
  reportOf (filter (fun x => negb (fst x =? id)) reports) k = reportOf reports k.
Proof.
  intros reports id k Hk. unfold reportOf.
  induction reports as [|[j r] rs IH]; simpl; [reflexivity|].
  destruct (j =? id) eqn:E; simpl.
  - apply Nat.eqb_eq in E; subst j.
    replace (id =? k) with false by (symmetry; apply Nat.eqb_neq; congruence). exact IH.
  - destruct (j =? k); [reflexivity | exact IH].
Qed.

(** One run of [updateProjectStatuses] (project ids unique): the ids and
    their order are kept; every project is either unchanged or was in
    [planning] or [inProgress] and got the status the loop body computes
    ([completed] or [overdue] past its end date, [inProgress] once a planned
    project has started); projects in other statuses are never touched; and
    when every e-mail goes out, the update reaches every project in scope
    (a failed e-mail ends the run early). *)
Theorem project_run_effect : forall today users sendOk ps log,
  NoDup (map prId ps) ->
  let ps' := fst (updateProjectStatuses today users sendOk ps log) in
  map prId ps' = map prId ps /\
  (forall q, In q ps -> exists q', findProject ps' (prId q) = Some q' /\
     (q' = q \/ (inScope q = true /\
                 exists st, statusUpdate today q = Some st /\ q' = withStatus q st))) /\
  (forall q, In q ps -> inScope q = false -> findProject ps' (prId q) = Some q) /\
  ((forall u, sendOk u = true) -> ps' = map (fun q => if inScope q then step today q else q) ps).
Proof.
  intros today users sendOk ps log Hd ps'.
  split; [apply run_ids; exact Hd|]. split; [|split].
  - intros q Hq. destruct (run_char today users sendOk ps log Hd) as [k [E _]].
    unfold ps'. rewrite E. rewrite (find_map_nodup _ ps q); [| |exact Hd|exact Hq].
    + eexists. split; [reflexivity|].
      destruct (existsb (fun p => prId p =? prId q) (firstn k (filter (fun p => inScope p) ps)))
        eqn:X; [|left; reflexivity].
      destruct (inScope q) eqn:S.
      * destruct (statusUpdate today q) as [st|] eqn:U; [|left; reflexivity].
        right. split; [reflexivity|]. exists st. split; reflexivity.
      * rewrite (out_of_scope_not_done ps k q Hd Hq S) in X. discriminate.
    + intros x. destruct (existsb _ _); [apply step_id | reflexivity].
  - intros q Hq Hs. apply run_out_of_scope; assumption.
  - intros Hok. apply run_all_ok; assumption.
Qed.

Lemma project_run_effect_witness :
  let p := mkProject 1 "planning" (Some 0%Z) (Some 100%Z) [] [7] [7] [] None None in
  findProject (fst (updateProjectStatuses 50 [7] (fun _ => true) [p] [])) 1
    = Some (withStatus p "inProgress").
Proof.
  intros p.
  destruct (project_run_effect 50 [7] (fun _ => true) [p] []
              ltac:(repeat constructor; simpl; tauto)) as [_ [_ [_ H]]].
  rewrite (H (fun _ => eq_refl)). reflexivity.
Defined.

(** [updateProjectStatuses] settles in one run: after a run at time
    [today] in which every e-mail went out, a second run at the same time
    changes no project and sends no e-mail, whatever its e-mail outcomes
    (a planned project it started is not past its end date, and the
    projects it completed or marked overdue are out of its scope). *)
Theorem project_run_idempotent : forall today users sendOk2 ps log,
  NoDup (map prId ps) ->
  let r1 := updateProjectStatuses today users (fun _ => true) ps log in
  updateProjectStatuses today users sendOk2 (fst r1) (snd r1) = r1.
Proof.
  intros today users sendOk2 ps log Hd r1.
  pose proof (run_all_ok today users (fun _ => true) ps log Hd (fun _ => eq_refl)) as E.
  fold r1 in E. destruct r1 as [ps1 log1]. simpl in E |- *.
  unfold updateProjectStatuses. apply loop_none. intros p Hp.
  apply filter_In in Hp as [Hp S]. rewrite E in Hp.
  apply in_map_iff in Hp as [q [<- _]]. apply stable_after_step. exact S.
Qed.

Lemma project_run_idempotent_witness :
  let ps := [mkProject 1 "planning" (Some 0%Z) (Some 100%Z) [] [7] [7] [] None None;
             mkProject 2 "inProgress" (Some 0%Z) (Some 20%Z) ["completed"] [7] [7] [] None None] in
  let r1 := updateProjectStatuses 50 [7] (fun _ => true) ps [] in
  updateProjectStatuses 50 [7] (fun _ => false) (fst r1) (snd r1) = r1.
Proof.
  intros ps r1.
  exact (project_run_idempotent 50 [7] (fun _ => false) ps []
           ltac:(repeat constructor; simpl; intuition discriminate)).
Defined.

(** A project marked completed by an assignee through [completeProject]
    (whatever status it had, even [planning]) stays completed with its
    completion date and notes through any sequence of hourly status runs,
    whatever their time and e-mail outcomes: the job only looks at
    [planning] and [inProgress] projects. *)
Theorem completed_project_stays_completed : forall ps uid now id notes msg ps',
  NoDup (map prId ps) ->
  completeProject ps uid now (Some id) notes = ((200%Z, msg), ps') ->
  forall runs users log, exists q,
    findProject (fst (runProjectJobs runs users ps' log)) id = Some q /\
    prStatus q = "completed" /\ prCompletedDate q = Some now /\ prCompletionNotes q = notes.
Proof.
  intros ps uid now id notes msg ps' Hd H runs users log. unfold completeProject in H.
  destruct (findProject ps id) as [p|] eqn:F; [|discriminate].
  destruct (negb (existsb (Nat.eqb uid) (prAssignees p))); [discriminate|].
  injection H as _ <-.
  assert (Hid : prId p = id).
  { unfold findProject in F. apply find_some in F as [_ F]. apply Nat.eqb_eq. exact F. }
  set (c := mkProject (prId p) "completed" (prStartDate p) (prEndDate p) (prTasks p)
              (prAssignedEmployees p) (prAssignees p) (prProgressUpdates p) (Some now) notes).
  exists c. split; [|split; [reflexivity | split; reflexivity]].
  subst id. change (prId p) with (prId c).
  apply runs_keep; [| |reflexivity].
  - rewrite save_ids. exact Hd.
  - apply (save_find ps c p). exact F.
Qed.

Lemma completed_project_stays_completed_witness :
  let ps := [mkProject 1 "planning" (Some 0%Z) (Some 100%Z) ["todo"] [7] [7] [] None None] in
  exists q, findProject (fst (runProjectJobs [(50%Z, fun _ => true); (200%Z, fun _ => true)] [7]
                                (snd (completeProject ps 7 40 (Some 1) None)) [])) 1 = Some q /\
            prStatus q = "completed".
Proof.
  intros ps.
  destruct (completed_project_stays_completed ps 7 40 1 None _ _
              ltac:(repeat constructor; simpl; tauto) eq_refl
              [(50%Z, fun _ => true); (200%Z, fun _ => true)] [7] [])
    as [q [F [S _]]].
  exists q. split; [exact F | exact S].
Defined.

(** [submitProgressReport]: without today's attendance record nothing is
    stored and the answer is 400.  With a non-empty summary and a record,
    the report is stored on that record (other records' reports kept)
    before the project is looked up, so a 404 or 403 about the project
    still leaves the report stored, with the project list unchanged. *)
Theorem progress_report_stored_before_project_checks :
  forall db reports ps uid now summary tc ch ns pid,
  let res := submitProgressReport db reports ps uid now summary tc ch ns pid in
  (attendanceOf db uid now = None -> snd res = (reports, ps) /\ fst (fst res) = 400%Z) /\
  (forall s a, summary = Some s -> s <> EmptyString -> attendanceOf db uid now = Some a ->
     (exists r, reportOf (fst (snd res)) (aId a) = Some r /\ rSummary r = s /\
                rSubmittedAt r = now) /\
     (forall k, k <> aId a -> reportOf (fst (snd res)) k = reportOf reports k) /\
     (fst (fst res) <> 200%Z -> snd (snd res) = ps)).
Proof.
  intros db reports ps uid now summary tc ch ns pid res. split.
  - intros N. unfold res, submitProgressReport.
    destruct summary as [[|c s]|]; [split; reflexivity | rewrite N; split; reflexivity |
                                    split; reflexivity].
  - intros s a -> Hs A. unfold res, submitProgressReport.
    destruct s as [|c s]; [congruence|]. rewrite A.
    assert (R : forall r, reportOf (setReport reports (aId a) r) (aId a) = Some r).
    { intros r. unfold reportOf, setReport. simpl. rewrite Nat.eqb_refl. reflexivity. }
    assert (O : forall r k, k <> aId a ->
                 reportOf (setReport reports (aId a) r) k = reportOf reports k).
    { intros r k Hk. unfold setReport, reportOf at 1. simpl.
      replace (aId a =? k) with false by (symmetry; apply Nat.eqb_neq; congruence).
      apply reportOf_filter. exact Hk. }
    destruct pid as [pid|]; [destruct (findProject ps pid) as [p|];
      [destruct (negb (existsb (Nat.eqb uid) (prAssignees p)))|]|]; simpl;
      (split; [eexists; split; [apply R | split; reflexivity]|
               split; [intros k Hk; apply O; exact Hk | intros Hc]]);
      solve [reflexivity | exfalso; apply Hc; reflexivity].
Qed.

Lemma progress_report_stored_before_project_checks_witness :
  let db := [Sample.attendance10] in
  let res := submitProgressReport db [] [] 10 (Sample.day0 + 40000000)%Z (Some "done")
               None None None (Some 99) in
  fst (fst res) = 404%Z /\ exists r, reportOf (fst (snd res)) 1 = Some r /\ rSummary r = "done".
Proof.
  intros db res. split; [reflexivity|].
  destruct (proj2 (progress_report_stored_before_project_checks db [] [] 10
              (Sample.day0 + 40000000)%Z (Some "done") None None None (Some 99))
              "done" Sample.attendance10 eq_refl ltac:(discriminate)
              ltac:(vm_compute; reflexivity)) as [[r [Hr [Hs _]]] _].
  exists r. split; [exact Hr | exact Hs].
Defined.

End ProjectFacts.

(** ** The other scheduled jobs *)
Module MoreJobsFacts.
Import Model People MoreJobs.

(** *** cleanupOldData *)

Lemma filter_idem : forall (A : Type) (f : A -> bool) l, filter f (filter f l) = filter f l.
Proof.
  intros A f. induction l as [|x l IH]; simpl; [reflexivity|].
  destruct (f x) eqn:E; simpl; [rewrite E|]; rewrite IH; reflexivity.
Qed.

Lemma clear_twice : forall cutoff a,
  (if (aDate (if (aDate a <? cutoff)%Z then clearResults a else a) <? cutoff)%Z
   then clearResults (if (aDate a <? cutoff)%Z then clearResults a else a)
   else (if (aDate a <? cutoff)%Z then clearResults a else a))
  = (if (aDate a <? cutoff)%Z then clearResults a else a).
Proof.
  intros cutoff a. destruct (aDate a <? cutoff)%Z eqn:E; simpl; rewrite E; reflexivity.
Qed.

(** [cleanupOldData]: no attendance record is deleted and none changes its
    id, employee, date or clock times; records dated from the cutoff on are
    kept as they are; records dated before it have no monitoring results
    left, so the efficiency the payment job would compute from them is 0;
    running the job again at once changes nothing; and exactly the
    invitations without an expiry or expiring at or after [now] remain. *)
Theorem cleanup_effect : forall threeMonthsAgo now db invs,
  let db' := fst (cleanupOldData threeMonthsAgo now db invs) in
  let invs' := snd (cleanupOldData threeMonthsAgo now db invs) in
  map (fun a => (aId a, aEmployee a, aDate a, clockInTime a, clockOutTime a)) db' =
    map (fun a => (aId a, aEmployee a, aDate a, clockInTime a, clockOutTime a)) db /\
  (forall a, In a db -> (threeMonthsAgo <= aDate a)%Z -> In a db') /\
  (forall a, In a db' -> (aDate a < threeMonthsAgo)%Z ->
     monitoringResults a = [] /\ Jobs.attendanceEfficiency a = 0%Q) /\
  cleanupOldData threeMonthsAgo now db' invs' = (db', invs') /\
  (forall i, In i invs' <-> In i invs /\ forall t, expiresAt i = Some t -> (now <= t)%Z).
Proof.
  intros cutoff now db invs db' invs'. unfold db', invs', cleanupOldData; simpl.
  split; [|split; [|split; [|split]]].
  - rewrite map_map. apply map_ext. intros a. destruct (aDate a <? cutoff)%Z; reflexivity.
  - intros a Ha Hd. apply in_map_iff. exists a. split; [|exact Ha].
    replace (aDate a <? cutoff)%Z with false by (symmetry; apply Z.ltb_ge; exact Hd).
    reflexivity.
  - intros a Ha Hd. apply in_map_iff in Ha as [b [<- Hb]].
    destruct (aDate b <? cutoff)%Z eqn:E; [split; reflexivity|].
    apply Z.ltb_ge in E. lia.
  - f_equal.
    + rewrite map_map. apply map_ext. intros a. apply clear_twice.
    + apply filter_idem.
  - intros i. rewrite filter_In. destruct (expiresAt i) as [t|] eqn:E.
    + split.
      * intros [Hi Ht]. split; [exact Hi|]. intros t' Ht'. injection Ht' as <-.
        apply negb_true_iff, Z.ltb_ge in Ht. exact Ht.
      * intros [Hi Ht]. split; [exact Hi|]. apply negb_true_iff, Z.ltb_ge, Ht. reflexivity.
    + split; intros [Hi _]; split; [exact Hi | discriminate | exact Hi | reflexivity].
Qed.

(** *** checkExpiringDocuments *)

Lemma saveDocument_ids : forall docs d, map dId (saveDocument docs d) = map dId docs.
Proof.
  intros docs d. unfold saveDocument. rewrite map_map. apply map_ext. intros x.
  destruct (dId x =? dId d) eqn:E; [apply Nat.eqb_eq in E; symmetry; exact E | reflexivity].
Qed.

(** Every logged id belongs to a document that is now marked as notified. *)
Definition loggedSent (docs : list Document) (log : list nat) : Prop :=
  forall id, In id log -> exists x, In x docs /\ dId x = id /\ dNotificationSent x = Some true.

Lemma loggedSent_save : forall docs log d,
  In (dId d) (map dId docs) -> loggedSent docs log ->
  loggedSent (saveDocument docs (markSent d)) (log ++ [dId d]).
Proof.
  intros docs log d Hd H id Hid. apply in_app_or in Hid as [Hid|[<-|[]]].
  - destruct (H id Hid) as [x [Hx [Ex Sx]]].
    destruct (dId x =? dId d) eqn:E.
    + exists (markSent d). split; [|split; [apply Nat.eqb_eq in E; simpl; congruence | reflexivity]].
      apply in_map_iff. exists x. split; [|exact Hx]. simpl. rewrite E. reflexivity.
    + exists x. split; [|split; assumption].
      apply in_map_iff. exists x. split; [|exact Hx]. simpl. rewrite E. reflexivity.
  - apply in_map_iff in Hd as [x [Ex Hx]].
    exists (markSent d). split; [|split; reflexivity].
    apply in_map_iff. exists x. split; [|exact Hx]. simpl. rewrite Ex, Nat.eqb_refl.
    reflexivity.
Qed.

Lemma expiryLoop_inv : forall sendOk todo docs log,
  NoDup log -> NoDup (map dId docs) -> loggedSent docs log ->
  NoDup (map dId todo) ->
  (forall d, In d todo -> ~ In (dId d) log /\ In (dId d) (map dId docs)) ->
  let r := expiryLoop sendOk todo docs log in
  NoDup (snd r) /\ NoDup (map dId (fst r)) /\ loggedSent (fst r) (snd r).
Proof.
  intros sendOk. induction todo as [|d rest IH]; intros docs log Hl Hd Hs Ht Hn; simpl.
  - split; [exact Hl | split; assumption].
  - destruct (sendOk (dId d)); [|split; [exact Hl | split; assumption]].
    inversion Ht as [|? ? Hnd Ht']; subst.
    destruct (Hn d (or_introl eq_refl)) as [Hnl Hin].
    apply IH.
    + apply NoDup_app; [exact Hl | repeat constructor; simpl; tauto |].
      intros x Hx [<-|[]]. exact (Hnl Hx).
    + rewrite saveDocument_ids. exact Hd.
    + apply loggedSent_save; assumption.
    + exact Ht'.
    + intros r Hr. destruct (Hn r (or_intror Hr)) as [Hr1 Hr2]. split.
      * intros Hx. apply in_app_or in Hx as [Hx|[Hx|[]]]; [exact (Hr1 Hx)|].
        apply Hnd. rewrite Hx. apply in_map. exact Hr.
      * rewrite saveDocument_ids. exact Hr2.
Qed.

Lemma nodup_dId_filter : forall f docs, NoDup (map dId docs) -> NoDup (map dId (filter f docs)).
Proof.
  intros f. induction docs as [|x docs IH]; intros H; simpl; [constructor|].
  inversion H as [|? ? Hn Hd]; subst. destruct (f x); simpl; [|apply IH; exact Hd].
  constructor; [|apply IH; exact Hd].
  intros Hin. apply Hn. apply in_map_iff in Hin as [y [E Hy]].
  apply filter_In in Hy. rewrite <- E. apply in_map. apply Hy.
Qed.

Lemma dId_inj : forall docs x y, NoDup (map dId docs) -> In x docs -> In y docs ->
  dId x = dId y -> x = y.
Proof.
  induction docs as [|r docs IH]; intros x y H Hx Hy E; [destruct Hx|].
  inversion H as [|? ? Hn Hd]; subst.
  destruct Hx as [<-|Hx], Hy as [<-|Hy]; [reflexivity| | |apply IH; assumption].
  - exfalso. apply Hn. rewrite E. apply in_map. exact Hy.
  - exfalso. apply Hn. rewrite <- E. apply in_map. exact Hx.
Qed.

Lemma check_inv : forall now horizon sendOk docs log,
  NoDup log -> NoDup (map dId docs) -> loggedSent docs log ->
  let r := checkExpiringDocuments now horizon sendOk docs log in
  NoDup (snd r) /\ NoDup (map dId (fst r)) /\ loggedSent (fst r) (snd r).
Proof.
  intros now horizon sendOk docs log Hl Hd Hs. unfold checkExpiringDocuments.
  apply expiryLoop_inv; [exact Hl | exact Hd | exact Hs | apply nodup_dId_filter; exact Hd|].
  intros d Hdin. apply filter_In in Hdin as [Hdin Hexp]. split.
  - intros Hx. destruct (Hs _ Hx) as [x [Hx' [Ex Sx]]].
    rewrite (dId_inj docs x d Hd Hx' Hdin Ex) in Sx.
    unfold expiringSoon in Hexp. rewrite Sx in Hexp.
    destruct (match dExpiryDate d with
              | Some t => (t <=? horizon)%Z && (now <? t)%Z
              | None => false end); discriminate.
  - apply in_map. exact Hdin.
Qed.

(** [checkExpiringDocuments], run any number of times (at any times, with
    any e-mail outcomes) over documents with distinct ids: no document is
    sent the expiry e-mail twice, and every document that was sent one is
    stored with [notificationSent = true]. *)
Theorem expiry_notice_at_most_once : forall runs docs,
  NoDup (map dId docs) ->
  let r := runExpiryChecks runs docs [] in
  NoDup (snd r) /\
  forall id, In id (snd r) ->
    exists d, In d (fst r) /\ dId d = id /\ dNotificationSent d = Some true.
Proof.
  intros runs docs Hd r.
  assert (G : forall rs ds log, NoDup log -> NoDup (map dId ds) -> loggedSent ds log ->
            NoDup (snd (runExpiryChecks rs ds log)) /\
            loggedSent (fst (runExpiryChecks rs ds log)) (snd (runExpiryChecks rs ds log))).
  { induction rs as [|[[now horizon] sendOk] rs IH]; intros docs0 log Hl Hd0 Hs; simpl.
    - split; assumption.
    - destruct (check_inv now horizon sendOk docs0 log Hl Hd0 Hs) as [A [B C]].
      apply IH; assumption. }
  destruct (G runs docs [] ltac:(constructor) Hd ltac:(intros id [])) as [A B].
  split; [exact A | exact B].
Qed.

Lemma expiry_notice_at_most_once_witness :
  let docs := [mkDocument 1 10 "passport" (Some 500%Z) None;
               mkDocument 2 10 "visa" (Some 900%Z) (Some false)] in
  NoDup (snd (runExpiryChecks [(100%Z, 1000%Z, fun _ => true);
                               (200%Z, 1000%Z, fun _ => true)] docs [])).
Proof.
  intros docs.
  exact (proj1 (expiry_notice_at_most_once [(100%Z, 1000%Z, fun _ => true);
                                            (200%Z, 1000%Z, fun _ => true)] docs
                  ltac:(repeat constructor; simpl; intuition discriminate))).
Defined.

(** *** sendEfficiencyReports *)

Lemma find_filter : forall (A : Type) (f g : A -> bool) l,
  find f (filter g l) = find (fun x => g x && f x) l.
Proof.
  intros A f g. induction l as [|x l IH]; simpl; [reflexivity|].
  destruct (g x); simpl; [destruct (f x)|]; [reflexivity | exact IH | exact IH].
Qed.

Lemma find_ext : forall (A : Type) (f g : A -> bool) l, (forall x, f x = g x) ->
  find f l = find g l.
Proof.
  intros A f g. induction l as [|x l IH]; intros H; simpl; [reflexivity|].
  rewrite H, IH by exact H. reflexivity.
Qed.

Lemma report_attendance : forall employees db today e, In e employees ->
  find (fun a => aEmployee a =? e)
    (filter (fun a => existsb (Nat.eqb (aEmployee a)) employees && onDay today (aDate a)) db)
  = Jobs.attendanceToday db e today.
Proof.
  intros employees db today e He. rewrite find_filter. unfold Jobs.attendanceToday.
  apply find_ext. intros a. destruct (aEmployee a =? e) eqn:E.
  - apply Nat.eqb_eq in E. subst e.
    replace (existsb (Nat.eqb (aEmployee a)) employees) with true.
    + unfold onDay. destruct (today <=? aDate a)%Z, (aDate a <? today + dayMs)%Z; reflexivity.
    + symmetry. apply existsb_exists. exists (aEmployee a). split; [exact He | apply Nat.eqb_refl].
  - rewrite andb_false_r. reflexivity.
Qed.

Lemma cron_payment_efficiency : forall now dow db w emp p,
  payments (Jobs.cronPayOne now dow db w emp) = payments w ++ [p] ->
  exists a, Jobs.attendanceToday db (eId emp) (dayStart now) = Some a /\
            pEfficiency p = Jobs.attendanceEfficiency a.
Proof.
  intros now dow db w emp p H. unfold Jobs.cronPayOne in H.
  assert (Nw : payments w <> payments w ++ [p]).
  { intros E. apply (f_equal (@length Payment)) in E. rewrite length_app in E. simpl in E. lia. }
  destruct (negb (existsb (Nat.eqb dow) (eWorkingDays emp))); [exfalso; exact (Nw H)|].
  destruct (Jobs.attendanceToday db (eId emp) (dayStart now)) as [a|]; [|exfalso; exact (Nw H)].
  destruct (isSome (clockInTime a) && isSome (clockOutTime a)); [|exfalso; exact (Nw H)].
  simpl in H. apply app_inv_head in H. injection H as <-. exists a. split; reflexivity.
Qed.

(** [sendEfficiencyReports] (one company): one row per active employee, in
    order; row [i] shows employee [i] with the efficiency of that
    employee's attendance record of the day (0 without one), which is the
    efficiency the 18:00 payment job stores on the payment it creates for
    that employee the same day; the status is "Present" exactly when that
    record has both clock times. *)
Theorem report_rows_match_attendance : forall employees db reports now,
  let today := dayStart now in
  let rows := reportData employees db reports today in
  length rows = length employees /\
  forall i e, nth_error employees i = Some e -> exists row,
    nth_error rows i = Some row /\ rowEmployee row = e /\
    rowEfficiency row = match Jobs.attendanceToday db e today with
                        | Some a => Jobs.attendanceEfficiency a
                        | None => 0%Q
                        end /\
    (rowStatus row = "Present" <->
       exists a, Jobs.attendanceToday db e today = Some a /\
                 isSome (clockInTime a) && isSome (clockOutTime a) = true) /\
    (forall dow w emp p, eId emp = e ->
       payments (Jobs.cronPayOne now dow db w emp) = payments w ++ [p] ->
       pEfficiency p = rowEfficiency row).
Proof.
  intros employees db reports now today rows. split; [apply length_map|].
  intros i e Hn.
  assert (He : In e employees) by (apply nth_error_In with i; exact Hn).
  unfold rows, reportData. rewrite nth_error_map, Hn. simpl option_map.
  eexists. split; [reflexivity|]. cbv beta zeta.
  rewrite (report_attendance employees db today e He).
  assert (Cron : forall x, (match Jobs.attendanceToday db e today with
                            | Some a => Jobs.attendanceEfficiency a
                            | None => 0%Q
                            end) = x ->
            forall dow w emp p, eId emp = e ->
            payments (Jobs.cronPayOne now dow db w emp) = payments w ++ [p] ->
            pEfficiency p = x).
  { intros x Ex dow w emp p Hid Hp. subst x.
    destruct (cron_payment_efficiency now dow db w emp p Hp) as [a [T Ep]].
    rewrite Hid in T. fold today in T. rewrite T. exact Ep. }
  destruct (Jobs.attendanceToday db e today) as [a|] eqn:T.
  - destruct (clockInTime a) as [ci|] eqn:Ci, (clockOutTime a) as [co|] eqn:Co;
      destruct (find (fun r => drEmployee r =? e) _); simpl;
      (split; [reflexivity | split; [reflexivity | split; [| apply Cron; reflexivity]]]);
      (split;
       [ try (intros _; exists a; split; [reflexivity | rewrite Ci, Co; reflexivity]);
         intros Hs; discriminate
       | intros [a' [Ta Hb]]; injection Ta as Ta; subst a'; rewrite Ci, Co in Hb;
         try reflexivity; simpl in Hb; discriminate ]).
  - destruct (find (fun r => drEmployee r =? e) _); simpl;
      (split; [reflexivity | split; [reflexivity | split; [| apply Cron; reflexivity]]]);
      (split; [discriminate | intros [a' [Ta _]]; discriminate]).
Qed.

Lemma report_rows_match_attendance_witness :
  exists row, nth_error (reportData [10] [Sample.attendance10] []
                            (dayStart (Sample.day0 + 40000000)%Z)) 0 = Some row /\
              rowEmployee row = 10 /\ rowStatus row = "Present".
Proof.
  destruct (proj2 (report_rows_match_attendance [10] [Sample.attendance10] []
                     (Sample.day0 + 40000000)%Z) 0 10 eq_refl)
    as [row [Hr [He [_ [Hp _]]]]].
  exists row. split; [exact Hr | split; [exact He|]].
  apply Hp. exists Sample.attendance10. split; reflexivity.
Defined.

(** *** scheduleEmployeeMonitoring *)

Lemma planner_props : forall draw ws we bs count,
  let r := Helpers.generateRandomMonitoringTimes draw ws we bs count in
  NoDup r /\ Sorted le r /\ length r <= count /\
  (forall m, In m r -> ws <= m <= we /\
     (forall b, In b bs -> ~ (Helpers.startTime b < m < Helpers.endTime b))).
Proof.
  intros draw ws we bs count r.
  pose proof (PlannerFacts.allMinutesOf_NoDup ws we bs) as Hnd.
  destruct (PlannerFacts.pickLoop_incl_NoDup draw (Helpers.allMinutesOf ws we bs)
              (Nat.min count (length (Helpers.allMinutesOf ws we bs)))
              ltac:(lia) Hnd) as [Hnd' [Hincl Hlen]].
  pose proof (PlannerFacts.sortTimes_perm
                (Helpers.pickLoop draw 0
                   (Nat.min count (length (Helpers.allMinutesOf ws we bs)))
                   (Helpers.allMinutesOf ws we bs) [])) as HP.
  unfold r, Helpers.generateRandomMonitoringTimes.
  split; [eapply Permutation_NoDup; eassumption|].
  split; [apply PlannerFacts.sortTimes_sorted|].
  split; [rewrite <- (Permutation_length HP); lia|].
  intros m Hm. apply PlannerFacts.allMinutesOf_spec.
  apply Hincl, (Permutation_in m (Permutation_sym HP)), Hm.
Qed.

Lemma mapSet_in : forall key v m k x, In (k, x) (mapSet key v m) ->
  (k = key /\ x = v) \/ In (k, x) m.
Proof.
  intros key v. induction m as [|[k0 x0] m IH]; intros k x H; simpl in H.
  - destruct H as [H|[]]. injection H as <- <-. left. split; reflexivity.
  - destruct (k0 =? key) eqn:E.
    + destruct H as [H|H]; [|right; right; exact H].
      injection H as <- <-. apply Nat.eqb_eq in E. left. split; [exact E | reflexivity].
    + destruct H as [H|H]; [right; left; exact H|].
      destruct (IH k x H) as [L|R]; [left; exact L | right; right; exact R].
Qed.

Lemma mapSet_keys : forall key v m,
  In key (map fst (mapSet key v m)) /\
  (forall k, In k (map fst m) -> In k (map fst (mapSet key v m))) /\
  (forall k, In k (map fst (mapSet key v m)) -> k = key \/ In k (map fst m)).
Proof.
  intros key v. induction m as [|[k0 x0] m IH]; simpl.
  - split; [left; reflexivity | split; [intros k [] | intros k [<-|[]]; left; reflexivity]].
  - destruct IH as [I1 [I2 I3]]. destruct (k0 =? key) eqn:E; simpl.
    + apply Nat.eqb_eq in E. split; [left; exact E|].
      split; intros k Hk; [exact Hk | right; exact Hk].
    + split; [right; exact I1|]. split.
      * intros k [Hk|Hk]; [left; exact Hk | right; apply I2; exact Hk].
      * intros k [Hk|Hk]; [right; left; exact Hk|].
        destruct (I3 k Hk) as [L|R]; [left; exact L | right; right; exact R].
Qed.

Lemma mapSet_nodup : forall key v m, NoDup (map fst m) -> NoDup (map fst (mapSet key v m)).
Proof.
  intros key v. induction m as [|[k0 x0] m IH]; intros H; simpl; [repeat constructor; simpl; tauto|].
  inversion H as [|? ? Hn Hd]; subst.
  destruct (k0 =? key) eqn:E; simpl; [constructor; assumption|].
  constructor; [|apply IH; exact Hd].
  intros Hk. destruct (proj2 (proj2 (mapSet_keys key v m)) k0 Hk) as [L|R].
  - apply Nat.eqb_neq in E. exact (E L).
  - exact (Hn R).
Qed.

Lemma scheduleLoop_entries : forall dow draws employees k jobs id t,
  In (id, t) (scheduleLoop dow draws k employees jobs) ->
  In (id, t) jobs \/
  exists s j, In (id, Some s) employees /\ existsb (Nat.eqb dow) (wsWorkingDays s) = true /\
    t = Helpers.generateRandomMonitoringTimes (draws j) (wsStartTime s) (wsEndTime s)
          (wsBreaks s) 10.
Proof.
  intros dow draws. induction employees as [|[id0 [s|]] rest IH]; intros k jobs id t H; simpl in H.
  - left. exact H.
  - destruct (existsb (Nat.eqb dow) (wsWorkingDays s)) eqn:W.
    + destruct (IH _ _ _ _ H) as [L|[s' [j [Hs [Hw Ht]]]]].
      * destruct (mapSet_in _ _ _ _ _ L) as [[-> ->]|R]; [|left; exact R].
        right. exists s, k. split; [left; reflexivity | split; [exact W | reflexivity]].
      * right. exists s', j. split; [right; exact Hs | split; assumption].
    + destruct (IH _ _ _ _ H) as [L|[s' [j [Hs [Hw Ht]]]]]; [left; exact L|].
      right. exists s', j. split; [right; exact Hs | split; assumption].
  - destruct (IH _ _ _ _ H) as [L|[s' [j [Hs [Hw Ht]]]]]; [left; exact L|].
    right. exists s', j. split; [right; exact Hs | split; assumption].
Qed.

Lemma scheduleLoop_keys : forall dow draws employees k jobs,
  (forall x, In x (map fst jobs) -> In x (map fst (scheduleLoop dow draws k employees jobs))) /\
  (NoDup (map fst jobs) -> NoDup (map fst (scheduleLoop dow draws k employees jobs))) /\
  (forall id s, In (id, Some s) employees -> existsb (Nat.eqb dow) (wsWorkingDays s) = true ->
     In id (map fst (scheduleLoop dow draws k employees jobs))).
Proof.
  intros dow draws. induction employees as [|[id0 [s|]] rest IH]; intros k jobs; simpl.
  - split; [tauto | split; [tauto | intros id s []]].
  - destruct (existsb (Nat.eqb dow) (wsWorkingDays s)) eqn:W.
    + set (m := mapSet id0 (Helpers.generateRandomMonitoringTimes (draws k) (wsStartTime s)
                              (wsEndTime s) (wsBreaks s) 10) jobs).
      destruct (IH (S k) m) as [I1 [I2 I3]].
      destruct (mapSet_keys id0 (Helpers.generateRandomMonitoringTimes (draws k) (wsStartTime s)
                              (wsEndTime s) (wsBreaks s) 10) jobs) as [K1 [K2 _]].
      split; [intros x Hx; apply I1, K2, Hx|]. split; [intros Hd; apply I2, mapSet_nodup, Hd|].
      intros id s' [Hs|Hs] Hw; [injection Hs as <- <-; apply I1, K1 | exact (I3 id s' Hs Hw)].
    + destruct (IH k jobs) as [I1 [I2 I3]].
      split; [exact I1 | split; [exact I2|]].
      intros id s' [Hs|Hs] Hw; [injection Hs as <- <-; rewrite W in Hw; discriminate|].
      exact (I3 id s' Hs Hw).
  - destruct (IH k jobs) as [I1 [I2 I3]].
    split; [exact I1 | split; [exact I2|]].
    intros id s' [Hs|Hs] Hw; [discriminate | exact (I3 id s' Hs Hw)].
Qed.

(** [scheduleEmployeeMonitoring]: the previous jobs are all dropped; the new
    map has one entry per employee whose work schedule lists today, and no
    other; each entry holds at most 10 distinct minutes, in ascending order,
    within that employee's working hours (both ends included) and not
    strictly inside any of the employee's breaks, whatever the random
    draws. *)
Theorem schedule_jobs_valid : forall dayOfWeek draws employees previous,
  let jobs := scheduleEmployeeMonitoring dayOfWeek draws employees previous in
  NoDup (map fst jobs) /\
  (forall id s, In (id, Some s) employees ->
     existsb (Nat.eqb dayOfWeek) (wsWorkingDays s) = true -> In id (map fst jobs)) /\
  (forall id times, In (id, times) jobs ->
     exists s, In (id, Some s) employees /\
       existsb (Nat.eqb dayOfWeek) (wsWorkingDays s) = true /\
       NoDup times /\ Sorted le times /\ length times <= 10 /\
       (forall m, In m times -> wsStartTime s <= m <= wsEndTime s /\
          (forall b, In b (wsBreaks s) -> ~ (Helpers.startTime b < m < Helpers.endTime b)))).
Proof.
  intros dow draws employees previous jobs. unfold jobs, scheduleEmployeeMonitoring.
  destruct (scheduleLoop_keys dow draws employees 0 []) as [_ [K2 K3]].
  split; [apply K2; constructor|]. split; [exact K3|].
  intros id times H.
  destruct (scheduleLoop_entries dow draws employees 0 [] id times H)
    as [[]|[s [j [Hs [Hw ->]]]]].
  exists s. split; [exact Hs | split; [exact Hw|]].
  apply planner_props.
Qed.

Lemma schedule_jobs_valid_witness :
  let employees := [(10, Some (mkSchedule 540 1020 [Helpers.mkBreak 720 780] [1; 2; 3]));
                    (11, Some (mkSchedule 540 1020 [] [6]))] in
  In 10 (map fst (scheduleEmployeeMonitoring 1 (fun _ i => i * 7) employees [(11, [600])])).
Proof.
  intros employees.
  exact (proj1 (proj2 (schedule_jobs_valid 1 (fun _ i => i * 7) employees [(11, [600])]))
           10 _ (or_introl eq_refl) eq_refl).
Defined.

Lemma cleanup_effect_witness :
  let old := mkAttendance 1 10 100%Z (Some 100%Z) (Some 200%Z)
               [mkResult 150%Z true None] in
  let db' := fst (cleanupOldData 1000 5000 [old; Sample.attendance10] []) in
  In Sample.attendance10 db' /\
  Jobs.attendanceEfficiency (clearResults old) = 0%Q.
Proof.
  intros old db'.
  destruct (cleanup_effect 1000 5000 [old; Sample.attendance10] []) as [_ [K [C _]]].
  split.
  - apply K; [right; left; reflexivity | unfold Sample.attendance10; simpl; lia].
  - apply C; [left; reflexivity | simpl; lia].
Defined.
End MoreJobsFacts.
